(** * sunsch: merging Eclipse Schedule fragments into one time line

    A shallow embedding of [src/subscript/sunsch.py] ([process_sch_config]
    and [dategrid]) together with the properties stated about it.

    Conventions of the embedding:
    - a [datetime.date] is represented by its proleptic Gregorian ordinal
      ([date.toordinal()]); comparison of dates and [timedelta] arithmetic
      are comparison and addition of ordinals, and [day], [month],
      [weekday()] and [isocalendar()] are computed from the ordinal with the
      algorithms of CPython's [datetime] module;
    - an exception is a value of [exn]; a call either returns ([Ok]) or
      raises ([Raise]);
    - the file system is a finite map from file names to lines, threaded
      through [process_sch_config] so that files created on the way are
      visible whether the call returns or raises;
    - status messages printed when [quiet] is false are not modelled. *)

From Stdlib Require Import ZArith String Ascii List Lia DecimalString Sorted.
From Equations Require Import Equations.
From stdpp Require Import gmap strings list stringmap.

Local Open Scope string_scope.
Local Open Scope Z_scope.

(** ** Exceptions and results *)

Inductive exn : Type :=
| Exception (msg : string)        (* raise Exception(msg) *)
| KeyError (key : string)         (* d[key] on a missing key *)
| NameError (name : string)       (* a local variable read before assignment *)
| ValueError (msg : string)       (* raised by the schedule parser *)
| IOError (path : string)         (* open() of a missing file *)
| IndexError                      (* list index out of range *)
| OverflowError.                  (* date value out of range *)

Inductive result (A : Type) : Type :=
| Ok (a : A)
| Raise (e : exn).
Arguments Ok {A} a.
Arguments Raise {A} e.

(** ** Calendar arithmetic (CPython's [datetime]) *)

Module Calendar.

Definition date := Z.

Definition MINORDINAL : Z := 1.
Definition MAXORDINAL : Z := 3652059.   (* date(9999, 12, 31).toordinal() *)

Definition is_leap (year : Z) : bool :=
  (year mod 4 =? 0) && (negb (year mod 100 =? 0) || (year mod 400 =? 0)).

Definition days_before_year (year : Z) : Z :=
  let y := year - 1 in y * 365 + y / 4 - y / 100 + y / 400.

Definition DAYS_IN_MONTH (month : Z) : Z :=
  match month with
  | 1 => 31 | 2 => 28 | 3 => 31 | 4 => 30 | 5 => 31 | 6 => 30
  | 7 => 31 | 8 => 31 | 9 => 30 | 10 => 31 | 11 => 30 | 12 => 31
  | _ => -1
  end.

Definition DAYS_BEFORE_MONTH (month : Z) : Z :=
  match month with
  | 1 => 0 | 2 => 31 | 3 => 59 | 4 => 90 | 5 => 120 | 6 => 151
  | 7 => 181 | 8 => 212 | 9 => 243 | 10 => 273 | 11 => 304 | 12 => 334
  | _ => -1
  end.

Definition days_before_month (year month : Z) : Z :=
  DAYS_BEFORE_MONTH month + (if (2 <? month) && is_leap year then 1 else 0).

Definition ymd2ord (year month day : Z) : Z :=
  days_before_year year + days_before_month year month + day.

Definition DI400Y : Z := 146097.
Definition DI100Y : Z := 36524.
Definition DI4Y : Z := 1461.

Definition ord2ymd (ordinal : Z) : Z * Z * Z :=
  let n := ordinal - 1 in
  let n400 := n / DI400Y in let n := n mod DI400Y in
  let year := n400 * 400 + 1 in
  let n100 := n / DI100Y in let n := n mod DI100Y in
  let n4 := n / DI4Y in let n := n mod DI4Y in
  let n1 := n / 365 in let n := n mod 365 in
  let year := year + n100 * 100 + n4 * 4 + n1 in
  if (n1 =? 4) || (n100 =? 4) then (year - 1, 12, 31)
  else
    let leapyear := (n1 =? 3) && (negb (n4 =? 24) || (n100 =? 3)) in
    let month := Z.shiftr (n + 50) 5 in
    let preceding :=
      DAYS_BEFORE_MONTH month + (if (2 <? month) && leapyear then 1 else 0) in
    if n <? preceding then
      let month := month - 1 in
      let preceding :=
        preceding
        - (DAYS_IN_MONTH month + (if (month =? 2) && leapyear then 1 else 0)) in
      (year, month, n - preceding + 1)
    else (year, month, n - preceding + 1).

Definition year (d : date) : Z := fst (fst (ord2ymd d)).
Definition month (d : date) : Z := snd (fst (ord2ymd d)).
Definition day (d : date) : Z := snd (ord2ymd d).

(* date.weekday(): Monday is 0 *)
Definition weekday (d : date) : Z := (d + 6) mod 7.

Definition isoweek1monday (year : Z) : Z :=
  let firstday := ymd2ord year 1 1 in
  let firstweekday := (firstday + 6) mod 7 in
  let week1monday := firstday - firstweekday in
  if 3 <? firstweekday then week1monday + 7 else week1monday.

(* date.isocalendar()[1] *)
Definition isoweek (d : date) : Z :=
  let year := year d in
  let week := (d - isoweek1monday year) / 7 in
  if week <? 0 then (d - isoweek1monday (year - 1)) / 7 + 1
  else if (52 <=? week) && (isoweek1monday (year + 1) <=? d) then 1
  else week + 1.

(* date + datetime.timedelta(days=n) *)
Definition add_days (d : date) (n : Z) : result date :=
  if (MINORDINAL <=? d + n) && (d + n <=? MAXORDINAL)
  then Ok (d + n) else Raise OverflowError.

(* A datetime.datetime: its date and the seconds elapsed since midnight. *)
Record datetime : Type := mkdt { dt_date : date; dt_time : Z }.

(* datetime.datetime.combine(d, datetime.datetime.min.time()) *)
Definition midnight (d : date) : datetime := mkdt d 0.

Definition dt_eqb (a b : datetime) : bool :=
  (dt_date a =? dt_date b) && (dt_time a =? dt_time b).

Definition dt_ltb (a b : datetime) : bool :=
  (dt_date a <? dt_date b)
  || ((dt_date a =? dt_date b) && (dt_time a <? dt_time b)).

End Calendar.
Import Calendar.

(* sunsch.datetime_from_date; [date] may be a date or a datetime, only its
   date part is used by combine. *)
Definition datetime_from_date (d : date) : datetime := midnight d.

Definition quote : string := String (ascii_of_nat 34) EmptyString.

Fixpoint join (sep : string) (l : list string) : string :=
  match l with
  | [] => EmptyString
  | [x] => x
  | x :: rest => x +:+ sep +:+ join sep rest
  end.

(** ** dategrid *)

Definition supportedintervals : list string :=
  ["monthly"; "yearly"; "weekly"; "biweekly"; "bimonthly"].

Definition unsupported_interval (interval : string) : exn :=
  Exception ("Unsupported dategrid interval " +:+ quote +:+ interval +:+ quote
             +:+ ". Pick among " +:+ join ", " supportedintervals).

(* The if/elif chain in the body of the while loop: is [d] appended? *)
Definition on_grid (interval : string) (startdateweekday : Z) (d : date) : bool :=
  if String.eqb interval "monthly" then day d =? 1
  else if String.eqb interval "bimonthly" then
    (day d =? 1) && (month d mod 2 =? 1)
  else if String.eqb interval "weekly" then weekday d =? startdateweekday
  else if String.eqb interval "biweekly" then
    (weekday d =? startdateweekday) && (isoweek d mod 2 =? 1)
  else if String.eqb interval "yearly" then (day d =? 1) && (month d =? 1)
  else if String.eqb interval "daily" then true
  else false.

(* while date <= enddate: ...; date += datetime.timedelta(days=1) *)
Equations dategrid_loop (interval : string) (startdateweekday : Z)
    (enddate d : date) (dates : list date) : result (list date)
    by wf (Z.to_nat (enddate + 1 - d)) lt :=
  dategrid_loop interval startdateweekday enddate d dates
    with Z_le_dec d enddate := {
    | right _ => Ok dates
    | left _ with Logic.inspect (add_days d 1) := {
      | exist _ (Raise e) _ => Raise e
      | exist _ (Ok d') _ =>
          dategrid_loop interval startdateweekday enddate d'
            (if on_grid interval startdateweekday d
             then (dates ++ [d])%list else dates) } }.
Next Obligation.
  intros _ _ enddate d d' Hadd Hle _ _. cbv beta in Hadd.
  unfold add_days in Hadd.
  destruct ((MINORDINAL <=? d + 1) && (d + 1 <=? MAXORDINAL))%bool;
    [injection Hadd as <-; lia | discriminate].
Qed.

Definition dategrid (startdate enddate : date) (interval : string)
  : result (list date) :=
  if negb (existsb (String.eqb interval) supportedintervals)
  then Raise (unsupported_interval interval)
  else
    match add_days startdate 1 with
    | Raise e => Raise e
    | Ok d => dategrid_loop interval (weekday startdate) enddate d [startdate]
    end.

Definition ymd (y m d : Z) : date := ymd2ord y m d.

(** ** Text: substring test, replace and str() *)

(* sub in s *)
Fixpoint contains (sub s : string) : bool :=
  String.prefix sub s
  || match s with
     | EmptyString => false
     | String _ rest => contains sub rest
     end.

(* s.replace(old, new) for a non-empty old: occurrences are found left to
   right and do not overlap; [skip] counts the characters of the current
   occurrence still to be dropped. *)
Fixpoint replace_from (old new : string) (skip : nat) (s : string) : string :=
  match s with
  | EmptyString => EmptyString
  | String c rest =>
      match skip with
      | S k => replace_from old new k rest
      | O =>
          if String.prefix old s
          then new +:+ replace_from old new (Nat.pred (String.length old)) rest
          else String c (replace_from old new O rest)
      end
  end.

(* s.replace("", new) puts new before every character and at the end *)
Fixpoint replace_empty (new s : string) : string :=
  match s with
  | EmptyString => new
  | String c rest => new +:+ String c (replace_empty new rest)
  end.

Definition replace (old new s : string) : string :=
  match old with
  | EmptyString => replace_empty new s
  | String _ _ => replace_from old new O s
  end.

(* Values the YAML loader produces for scalar nodes. *)
Inductive yaml : Type :=
| YStr (s : string)
| YInt (n : Z)
| YDate (d : date)
| YDatetime (dt : datetime).

Definition decimal (n : Z) : string := NilZero.string_of_int (Z.to_int n).

Fixpoint zeros (n : nat) : string :=
  match n with O => EmptyString | S k => String "0" (zeros k) end.

(* '%0<w>d' % n for n >= 0 *)
Definition zfill (w : nat) (n : Z) : string :=
  let s := decimal n in zeros (w - String.length s) +:+ s.

Definition isoformat (d : date) : string :=
  zfill 4 (year d) +:+ "-" +:+ zfill 2 (month d) +:+ "-" +:+ zfill 2 (day d).

Definition str (v : yaml) : string :=
  match v with
  | YStr s => s
  | YInt n => decimal n
  | YDate d => isoformat d
  | YDatetime dt =>
      isoformat (dt_date dt) +:+ " " +:+ zfill 2 (dt_time dt / 3600) +:+ ":"
      +:+ zfill 2 (dt_time dt / 60 mod 60) +:+ ":" +:+ zfill 2 (dt_time dt mod 60)
  end.

(* for key in substdict:
       if "<" + key + ">" in line:
           line = line.replace("<" + key + ">", str(substdict[key]))
   [substdict] lists the items of the dict in its iteration order. *)
Definition substitute_key (line : string) (item : string * yaml) : string :=
  let token := "<" +:+ fst item +:+ ">" in
  if contains token line then replace token (str (snd item)) line else line.

Definition substitute_line (substdict : list (string * yaml)) (line : string)
  : string :=
  fold_left substitute_key substdict line.

(** ** The schedule document (sunbeam's TimeVector) *)

Module TimeVector.

(** Modelled from the spec: the class [TimeVector] of sunbeam.tools is an
    external collaborator whose code is not part of this repository. The
    operations below follow the interface of the specification's section
    on external interfaces: [load], [add_keywords], [delete] and [dates].
    A document is the list of its time steps, ascending by date, each with
    the content blobs added at that date in insertion order. *)
Definition t : Type := list (datetime * list string).

(** Modelled from the spec: [dates] is the sequence of the distinct dates
    currently present, ascending. *)
Definition dates (tv : t) : list datetime := map fst tv.

(** Modelled from the spec: [add_keywords(date, content_lines)] appends a
    raw content blob at [date], without parsing it. *)
Fixpoint add_keywords (tv : t) (dt : datetime) (keywords : list string) : t :=
  match tv with
  | [] => [(dt, keywords)]
  | (d, ks) :: rest =>
      if dt_eqb d dt then (d, (ks ++ keywords)%list) :: rest
      else if dt_ltb dt d then (dt, keywords) :: (d, ks) :: rest
      else (d, ks) :: add_keywords rest dt keywords
  end.

(** Modelled from the spec: [delete(date)] removes all entries at an exact
    date. *)
Definition delete (tv : t) (dt : datetime) : t :=
  List.filter (fun step => negb (dt_eqb (fst step) dt)) tv.

Definition keywords_at (tv : t) (dt : datetime) : option (list string) :=
  snd <$> List.find (fun step => dt_eqb (fst step) dt) tv.

(* What the parser makes of a file: the content before the first date
   marker, then the dated blocks. *)
Record fragment : Type :=
  { leading : list string; blocks : list (datetime * list string) }.

Definition add_blocks (tv : t) (bs : list (datetime * list string)) : t :=
  fold_left (fun tv b => add_keywords tv (fst b) (snd b)) bs tv.

Definition no_date_msg : string :=
  "content before the first DATES needs a date".

(** Modelled from the spec: [load(source, date=None)] parses the content of
    [source] and merges its entries into the document; content lacking its
    own leading date marker is stamped at [date]. A parser diagnostic is the
    ValueError that the merge loop of sunsch catches. *)
Definition load (parse : list string -> string + fragment)
    (fs : gmap string (list string)) (tv : t) (source : string)
    (date : option datetime) : result t :=
  match fs !! source with
  | None => Raise (IOError source)
  | Some lines =>
      match parse lines with
      | inl diagnostic => Raise (ValueError diagnostic)
      | inr frag =>
          match leading frag, date with
          | [], _ => Ok (add_blocks tv (blocks frag))
          | _ :: _, Some dt =>
              Ok (add_blocks (add_keywords tv dt (leading frag)) (blocks frag))
          | _ :: _, None => Raise (ValueError no_date_msg)
          end
      end
  end.

End TimeVector.

(** ** Computations that read and write files and may raise *)

Definition M (A : Type) : Type :=
  gmap string (list string) -> gmap string (list string) * result A.

Definition ret {A} (a : A) : M A := fun fs => (fs, Ok a).
Definition raise {A} (e : exn) : M A := fun fs => (fs, Raise e).

Definition bind {A B} (c : M A) (k : A -> M B) : M B :=
  fun fs =>
    match c fs with
    | (fs', Ok a) => k a fs'
    | (fs', Raise e) => (fs', Raise e)
    end.

Notation "'let*' x ':=' c 'in' k" := (bind c (fun x => k))
  (at level 10, x name, c at level 100, k at level 200).

Definition lift {A} (r : result A) : M A := fun fs => (fs, r).

(* A computation that removes no file. *)
Definition keeps_files {A} (c : M A) : Prop :=
  forall fs, dom fs ⊆ dom (fst (c fs)).

(* for x in xs: acc = body(x, acc) *)
Fixpoint for_each {A S} (body : A -> S -> M S) (xs : list A) (acc : S) : M S :=
  match xs with
  | [] => ret acc
  | x :: rest => let* acc' := body x acc in for_each body rest acc'
  end.

(* Reading a local variable that may not have been assigned yet. *)
Definition read_var {A} (name : string) (v : option A) : M A :=
  match v with Some a => ret a | None => raise (NameError name) end.

(* sunschconf[key] *)
Definition getitem {A} (key : string) (v : option A) : M A :=
  match v with Some a => ret a | None => raise (KeyError key) end.

(* tempfile.NamedTemporaryFile(delete=False): a new, empty file under a
   name no existing file has; nothing removes it when it is closed. *)
Definition NamedTemporaryFile : M string :=
  fun fs =>
    let name := fresh_string "/tmp/tmp" fs in
    (<[name := []]> fs, Ok name).

(* open(filename, 'r').readlines() *)
Definition readlines (filename : string) : M (list string) :=
  fun fs =>
    match fs !! filename with
    | Some lines => (fs, Ok lines)
    | None => (fs, Raise (IOError filename))
    end.

(* the lines written to an open file, then close() *)
Definition write_lines (filename : string) (lines : list string) : M unit :=
  fun fs => (<[filename := lines]> fs, Ok tt).

(** ** The configuration *)

(* One element of the 'insert' list: a dict with the single key [fileid]
   whose value holds the optional entries date, days, filename, string and
   substitute. *)
Record insertion : Type :=
  { fileid : string;
    i_date : option date;
    i_days : option Z;
    i_filename : option string;
    i_string : option string;
    i_substitute : option (list (string * yaml)) }.

(* sunschconf: each field is the value under the key of the same name, or
   None when the key is absent. *)
Record config : Type :=
  { c_startdate : option date;
    c_refdate : option date;
    c_enddate : option yaml;
    c_init : option string;
    c_merge : option (list string);
    c_insert : option (list insertion);
    c_dategrid : option string }.

(* if 'refdate' not in sunschconf and 'startdate' in sunschconf:
       sunschconf['refdate'] = sunschconf['startdate'] *)
Definition default_refdate (sunschconf : config) : config :=
  match c_refdate sunschconf, c_startdate sunschconf with
  | None, Some s =>
      {| c_startdate := c_startdate sunschconf;
         c_refdate := Some s;
         c_enddate := c_enddate sunschconf;
         c_init := c_init sunschconf;
         c_merge := c_merge sunschconf;
         c_insert := c_insert sunschconf;
         c_dategrid := c_dategrid sunschconf |}
  | _, _ => sunschconf
  end.

(* The local variables of process_sch_config that live across the
   iterations of the insert loop; filename and date are unassigned until an
   iteration assigns them. *)
Record locals : Type :=
  { v_schedule : TimeVector.t;
    v_filename : option string;
    v_date : option datetime }.

(** ** process_sch_config *)

Section Assembler.

(** The schedule parser behind [TimeVector.load] and the constructor
    [TimeVector(start_date)] belong to sunbeam, which is not part of this
    repository. Both are parameters: [parse] turns the lines of a file into
    a fragment or a diagnostic, and [TimeVector_new] gives the document a
    constructor call starts from (the specification does not say whether a
    new document already holds its start date). *)
Variable parse : list string -> string + TimeVector.fragment.
Variable TimeVector_new : date -> TimeVector.t.

(* schedule.load(source, date=date) *)
Definition schedule_load (schedule : TimeVector.t) (source : string)
    (date : option datetime) : M TimeVector.t :=
  fun fs => (fs, TimeVector.load parse fs schedule source date).

(* Lines 74-79 *)
Definition new_schedule (sunschconf : config) : M TimeVector.t :=
  match c_startdate sunschconf with
  | Some startdate => ret (TimeVector_new startdate)
  | None =>
      match c_refdate sunschconf with
      | Some refdate => ret (TimeVector_new refdate)
      | None => raise (Exception "No startdate or refdate given")
      end
  end.

(* Lines 84-89 *)
Definition load_init (sunschconf : config) (schedule : TimeVector.t)
  : M TimeVector.t :=
  match c_init sunschconf with
  | None => ret schedule
  | Some init =>
      let* startdate := getitem "startdate" (c_startdate sunschconf) in
      schedule_load schedule init (Some (midnight startdate))
  end.

(* Lines 93-98: the body of the merge loop *)
Definition merge_file (file : string) (schedule : TimeVector.t)
  : M TimeVector.t :=
  fun fs =>
    match schedule_load schedule file None fs with
    | (fs', Raise (ValueError exception)) =>
        (fs', Raise (Exception ("Error in " +:+ file +:+ ": " +:+ exception)))
    | other => other
    end.

Definition merge_files (sunschconf : config) (schedule : TimeVector.t)
  : M TimeVector.t :=
  match c_merge sunschconf with
  | None => ret schedule
  | Some files => for_each merge_file files schedule
  end.

(* Lines 109-113 *)
Definition choose_filename (file : insertion) (filename : option string)
  : option string :=
  match i_string file with
  | None =>
      match i_filename file with
      | None => Some (fileid file)
      | Some name => Some name
      end
  | Some _ => filename
  end.

(* Lines 117-130 *)
Definition substitute (file : insertion) (resultfilename : string)
    (filename : option string) : M (option string) :=
  match i_substitute file with
  | None => ret filename
  | Some substdict =>
      let* name := read_var "filename" filename in
      let* templatelines := readlines name in
      let* _ := write_lines resultfilename
                  (map (substitute_line substdict) templatelines) in
      ret (Some resultfilename)
  end.

Definition days_without_refdate : string :=
  "ERROR: When using days in insert statements, you must provide refdate".

(* Lines 132-142: "Figure out the correct date" *)
Definition resolve_date (sunschconf : config) (file : insertion)
    (date : option datetime) : result (option datetime) :=
  let date :=
    match i_date file with
    | Some d => Some (midnight d)
    | None => date
    end in
  match i_days file with
  | None => Ok date
  | Some days =>
      match c_refdate sunschconf with
      | None => Raise (Exception days_without_refdate)
      | Some refdate =>
          match add_days refdate days with
          | Ok d => Ok (Some (midnight d))
          | Raise e => Raise e
          end
      end
  end.

(* Lines 143-147 *)
Definition place (file : insertion) (schedule : TimeVector.t)
    (filename : option string) (date : option datetime) : M TimeVector.t :=
  match i_string file with
  | None =>
      let* name := read_var "filename" filename in
      let* dt := read_var "date" date in
      schedule_load schedule name (Some dt)
  | Some text =>
      let* dt := read_var "date" date in
      ret (TimeVector.add_keywords schedule
             (datetime_from_date (dt_date dt)) [text])
  end.

(* Lines 117-147: the body of the insert loop after the temporary file
   has been created *)
Definition after_tempfile (sunschconf : config) (file : insertion)
    (vars : locals) (resultfilename : string) : M locals :=
  let* filename := substitute file resultfilename
                     (choose_filename file (v_filename vars)) in
  let* date := lift (resolve_date sunschconf file (v_date vars)) in
  let* schedule := place file (v_schedule vars) filename date in
  ret {| v_schedule := schedule; v_filename := filename; v_date := date |}.

(* Lines 101-147: the body of the insert loop *)
Definition process_insert (sunschconf : config) (file : insertion)
    (vars : locals) : M locals :=
  let* resultfilename := NamedTemporaryFile in
  after_tempfile sunschconf file vars resultfilename.

(* The variables the insert loop starts with: filename and date are not
   assigned. *)
Definition first_locals (schedule : TimeVector.t) : locals :=
  {| v_schedule := schedule; v_filename := None; v_date := None |}.

Definition insert_files (sunschconf : config) (schedule : TimeVector.t)
  : M TimeVector.t :=
  match c_insert sunschconf with
  | None => ret schedule
  | Some files =>
      let* vars := for_each (process_insert sunschconf) files
                     (first_locals schedule) in
      ret (v_schedule vars)
  end.

(* Lines 74-98: the new schedule with the init file and the merged files *)
Definition load_and_merge (sunschconf : config) : M TimeVector.t :=
  let* schedule := new_schedule sunschconf in
  let sunschconf := default_refdate sunschconf in
  let* schedule := load_init sunschconf schedule in
  merge_files sunschconf schedule.

(* Lines 74-147: everything that is loaded, merged and inserted *)
Definition load_all (sunschconf : config) : M TimeVector.t :=
  let* schedule := load_and_merge sunschconf in
  insert_files (default_refdate sunschconf) schedule.

Definition bad_enddate : string :=
  "ERROR: end-date not in ISO-8601 format, must be YYYY-MM-DD".

(* Lines 149-159 *)
Definition resolve_enddate (sunschconf : config) (schedule : TimeVector.t)
  : result date :=
  match c_enddate sunschconf with
  | None =>
      match List.last (map Some (TimeVector.dates schedule)) None with
      | Some dt => Ok (dt_date dt)
      | None => Raise IndexError
      end
  | Some (YDate enddate) => Ok enddate
  | Some _ => Raise (Exception bad_enddate)
  end.

(* Lines 161-164: "Clip anything that is beyond the enddate" *)
Definition clip (schedule : TimeVector.t) (enddate : date) : TimeVector.t :=
  fold_left
    (fun schedule dt =>
       if enddate <? dt_date dt then TimeVector.delete schedule dt
       else schedule)
    (TimeVector.dates schedule) schedule.

(* Lines 166-169: "Ensure that the end-date is actually mentioned" *)
Definition mention_enddate (schedule : TimeVector.t) (enddate : date)
  : TimeVector.t :=
  if existsb (Z.eqb enddate) (map dt_date (TimeVector.dates schedule))
  then schedule
  else TimeVector.add_keywords schedule (datetime_from_date enddate)
         [EmptyString].

(* Lines 173-177 *)
Definition add_dategrid (sunschconf : config) (schedule : TimeVector.t)
    (enddate : date) : result TimeVector.t :=
  match c_dategrid sunschconf with
  | None => Ok schedule
  | Some interval =>
      match c_startdate sunschconf with
      | None => Raise (KeyError "startdate")
      | Some startdate =>
          match dategrid startdate enddate interval with
          | Raise e => Raise e
          | Ok dates =>
              Ok (fold_left
                    (fun schedule d =>
                       TimeVector.add_keywords schedule
                         (datetime_from_date d) [EmptyString])
                    dates schedule)
          end
      end
  end.

(* Lines 149-179 *)
Definition finish (sunschconf : config) (schedule : TimeVector.t)
  : result TimeVector.t :=
  match resolve_enddate sunschconf schedule with
  | Raise e => Raise e
  | Ok enddate =>
      add_dategrid sunschconf
        (mention_enddate (clip schedule enddate) enddate) enddate
  end.

Definition process_sch_config (sunschconf : config) : M TimeVector.t :=
  let* schedule := load_all sunschconf in
  lift (finish (default_refdate sunschconf) schedule).

End Assembler.

(* A computation that leaves every file as it is. *)
Definition reads_only {A} (c : M A) : Prop :=
  forall fs, fst (c fs) = fs.

(* A computation that leaves the files it finds as they are, and may add
   files. *)
Definition adds_files_only {A} (c : M A) : Prop :=
  forall fs, fs ⊆ fst (c fs).

(* The exceptions that leave process_sch_config. *)
Inductive failure : exn -> Prop :=
| no_base_date : failure (Exception "No startdate or refdate given")
| no_startdate : failure (KeyError "startdate")
| unreadable (path : string) : failure (IOError path)
| unparsable (diagnostic : string) : failure (ValueError diagnostic)
| unmergeable (file diagnostic : string) :
    failure (Exception ("Error in " +:+ file +:+ ": " +:+ diagnostic))
| unassigned_filename : failure (NameError "filename")
| unassigned_date : failure (NameError "date")
| date_out_of_range : failure OverflowError
| empty_schedule : failure IndexError
| malformed_enddate : failure (Exception bad_enddate)
| unknown_interval (interval : string) :
    failure (unsupported_interval interval).

(* Content that holds nothing but empty strings, as the markers do. *)
Definition blank (markers : list string) : Prop :=
  Forall (fun k => k = EmptyString) markers.

(** ** Sample inputs *)

Module Sample.

(* A parser that takes every line as content before the first date. *)
Definition parse_plain (lines : list string) : string + TimeVector.fragment :=
  inr {| TimeVector.leading := lines; TimeVector.blocks := [] |}.

(* The two readings of TimeVector(start_date): an empty document, and a
   document that already holds an empty step at its start date. *)
Definition empty_document (start : date) : TimeVector.t := [].

Definition no_keys : config :=
  {| c_startdate := None; c_refdate := None; c_enddate := None;
     c_init := None; c_merge := None; c_insert := None;
     c_dategrid := None |}.

(* startdate: 2020-01-01, enddate: 2020-06-01, dategrid: monthly *)
Definition monthly_2020 : config :=
  {| c_startdate := Some (ymd 2020 1 1); c_refdate := None;
     c_enddate := Some (YDate (ymd 2020 6 1));
     c_init := None; c_merge := None; c_insert := None;
     c_dategrid := Some "monthly" |}.

(* refdate: 2020-01-01, init: init.sch *)
Definition init_without_startdate : config :=
  {| c_startdate := None; c_refdate := Some (ymd 2020 1 1);
     c_enddate := None; c_init := Some "init.sch"; c_merge := None;
     c_insert := None; c_dategrid := None |}.

Definition with_inserts (files : list insertion) : config :=
  {| c_startdate := Some (ymd 2020 1 1); c_refdate := None;
     c_enddate := None; c_init := None; c_merge := None;
     c_insert := Some files; c_dategrid := None |}.

(* - foo.sch: {date: 2020-03-01, days: 10, string: WCONHIST} *)
Definition date_and_days : insertion :=
  {| fileid := "foo.sch"; i_date := Some (ymd 2020 3 1); i_days := Some 10;
     i_filename := None; i_string := Some "WCONHIST";
     i_substitute := None |}.

(* - foo.sch: {date: 2020-03-01, substitute: {NAME: P1}} *)
Definition templated_file : insertion :=
  {| fileid := "foo.sch"; i_date := Some (ymd 2020 3 1); i_days := None;
     i_filename := None; i_string := None;
     i_substitute := Some [("NAME", YStr "P1")] |}.

(* - welspecs: {date: 2020-03-01, string: "WELSPECS <NAME>",
                substitute: {NAME: P1}} *)
Definition templated_string : insertion :=
  {| fileid := "welspecs"; i_date := Some (ymd 2020 3 1); i_days := None;
     i_filename := None; i_string := Some "WELSPECS <NAME>";
     i_substitute := Some [("NAME", YStr "P1")] |}.


(* - later: {string: COMPDAT} *)
Definition undated_string : insertion :=
  {| fileid := "later"; i_date := None; i_days := None;
     i_filename := None; i_string := Some "COMPDAT";
     i_substitute := None |}.

(* The schedule the call returns for [monthly_2020]. *)
Definition monthly_2020_schedule : TimeVector.t :=
  [(midnight (ymd 2020 1 1), [EmptyString]);
   (midnight (ymd 2020 2 1), [EmptyString]);
   (midnight (ymd 2020 3 1), [EmptyString]);
   (midnight (ymd 2020 4 1), [EmptyString]);
   (midnight (ymd 2020 5 1), [EmptyString]);
   (midnight (ymd 2020 6 1), [EmptyString; EmptyString])].

(* startdate: 2020-01-01, enddate: "2020-06-01" (a text) *)
Definition text_enddate : config :=
  {| c_startdate := Some (ymd 2020 1 1); c_refdate := None;
     c_enddate := Some (YStr "2020-06-01");
     c_init := None; c_merge := None; c_insert := None;
     c_dategrid := None |}.


(* startdate: 2020-01-01, enddate: 2020-06-01 *)
Definition until_june : config :=
  {| c_startdate := Some (ymd 2020 1 1); c_refdate := None;
     c_enddate := Some (YDate (ymd 2020 6 1));
     c_init := None; c_merge := None; c_insert := None;
     c_dategrid := None |}.

(* startdate: 2020-01-01, merge: [foo.sch, bar.sch] *)
Definition merge_two : config :=
  {| c_startdate := Some (ymd 2020 1 1); c_refdate := None;
     c_enddate := None; c_init := None;
     c_merge := Some ["foo.sch"; "bar.sch"];
     c_insert := None; c_dategrid := None |}.

(* - foo.sch: {days: 10, string: WCONHIST} *)
Definition ten_days_later : insertion :=
  {| fileid := "foo.sch"; i_date := None; i_days := Some 10;
     i_filename := None; i_string := Some "WCONHIST";
     i_substitute := None |}.

(* - foo.sch: {days: 3000000, string: WCONHIST} *)
Definition too_many_days : insertion :=
  {| fileid := "foo.sch"; i_date := None; i_days := Some 3000000;
     i_filename := None; i_string := Some "WCONHIST";
     i_substitute := None |}.

(* The schedule the final passes make of one entry in February and one in
   July with [monthly_2020]. *)
Definition february_content : TimeVector.t :=
  [(midnight (ymd 2020 2 1), ["WELSPECS"]);
   (midnight (ymd 2020 7 1), ["LATE"])].

Definition february_finished : TimeVector.t :=
  [(midnight (ymd 2020 1 1), [EmptyString]);
   (midnight (ymd 2020 2 1), ["WELSPECS"; EmptyString]);
   (midnight (ymd 2020 3 1), [EmptyString]);
   (midnight (ymd 2020 4 1), [EmptyString]);
   (midnight (ymd 2020 5 1), [EmptyString]);
   (midnight (ymd 2020 6 1), [EmptyString; EmptyString])].

Definition foo_sch : gmap string (list string) :=
  {[ "foo.sch" := ["WELSPECS <NAME> 'G1' <GROUP>"] ]}.

End Sample.

(** * Properties *)

(** ** dategrid *)

Lemma add_days_Ok (d n d' : date) :
  add_days d n = Ok d' -> d' = d + n /\ MINORDINAL <= d + n <= MAXORDINAL.
Proof.
  unfold add_days.
  destruct (MINORDINAL <=? d + n) eqn:Hlo, (d + n <=? MAXORDINAL) eqn:Hhi;
    simpl; intros H; inversion H; subst.
  apply Z.leb_le in Hlo, Hhi. lia.
Qed.

Lemma add_days_in_range (d n : date) :
  MINORDINAL <= d + n <= MAXORDINAL -> add_days d n = Ok (d + n).
Proof.
  intros [Hlo Hhi]. unfold add_days.
  apply Z.leb_le in Hlo, Hhi. now rewrite Hlo, Hhi.
Qed.

(* Weaken the bounds of a [Forall] over dates. *)
Ltac weaken_range H :=
  eapply List.Forall_impl; [|exact H]; simpl; intros; lia.

Section DategridFacts.

Variables (interval : string) (startdateweekday : Z) (enddate : date).

Ltac forget_call_equations :=
  repeat match goal with
         | H : sigmaI _ _ _ = _ |- _ => clear H
         | H : dategrid_loop _ _ _ _ _ = dategrid_loop _ _ _ _ _ |- _ =>
             clear H
         end.

(* What the loop started at day [d] returns: [dates] followed by days of
   [d .. enddate] in increasing order. *)
Lemma dategrid_loop_Ok (d : date) (dates out : list date) :
  dategrid_loop interval startdateweekday enddate d dates = Ok out ->
  exists more,
    out = (dates ++ more)%list
    /\ StronglySorted Z.lt more
    /\ Forall (fun x => d <= x <= enddate) more.
Proof.
  revert out.
  funelim (dategrid_loop interval startdateweekday enddate d dates);
    intros out Hout; forget_call_equations.
  - injection Hout as <-. exists []. rewrite app_nil_r.
    repeat split; constructor.
  - match goal with
    | Hadd : add_days _ 1 = Ok _ |- _ =>
        pose proof (add_days_Ok _ _ _ Hadd) as [Hd' _]; clear Hadd
    end.
    subst d'.
    match goal with
    | IH : forall out, _ = Ok out -> _ |- _ =>
        destruct (IH out Hout) as (more & -> & Hsorted & Hrange)
    end.
    assert (Hweaken : Forall (fun x => d <= x <= enddate) more)
      by weaken_range Hrange.
    destruct (on_grid interval startdateweekday d).
    + exists (d :: more). rewrite <- app_assoc. repeat split; trivial.
      * constructor; trivial. weaken_range Hrange.
      * constructor; trivial. lia.
    + exists more. auto.
  - discriminate.
Qed.

(* The loop runs to its end when the end date is not the last day of the
   calendar. *)
Lemma dategrid_loop_returns (d : date) (dates : list date) :
  0 <= d -> enddate < MAXORDINAL ->
  exists out,
    dategrid_loop interval startdateweekday enddate d dates = Ok out.
Proof.
  funelim (dategrid_loop interval startdateweekday enddate d dates);
    intros Hd Hend; forget_call_equations.
  - eauto.
  - match goal with
    | Hadd : add_days _ 1 = Ok _, IH : _ -> _ -> exists _, _ |- _ =>
        apply add_days_Ok in Hadd as [-> _]; apply IH; [lia | assumption]
    end.
  - match goal with
    | Hadd : add_days _ 1 = Raise _ |- _ =>
        rewrite add_days_in_range in Hadd by (unfold MINORDINAL; lia);
        discriminate
    end.
Qed.

End DategridFacts.

Lemma supported_existsb (interval : string) :
  existsb (String.eqb interval) supportedintervals = true
  <-> In interval supportedintervals.
Proof.
  rewrite existsb_exists. split.
  - intros (x & Hin & Heq). apply String.eqb_eq in Heq. now subst.
  - intros Hin. exists interval. split; trivial. apply String.eqb_refl.
Qed.

(* Whatever [dategrid] returns starts with the start date; the days after
   it are in increasing order, after the start date and not after the end
   date. *)
Lemma dategrid_Ok (startdate enddate : date) (interval : string)
    (dates : list date) :
  dategrid startdate enddate interval = Ok dates ->
  exists rest,
    dates = startdate :: rest
    /\ StronglySorted Z.lt (startdate :: rest)
    /\ Forall (fun d => startdate < d <= enddate) rest.
Proof.
  unfold dategrid.
  destruct (negb _); [discriminate|].
  destruct (add_days startdate 1) as [d|] eqn:Hadd; [|discriminate].
  apply add_days_Ok in Hadd as [-> _]. intros Hloop.
  apply dategrid_loop_Ok in Hloop as (rest & -> & Hsorted & Hrange).
  assert (Hrest : Forall (fun d => startdate < d <= enddate) rest)
    by weaken_range Hrange.
  exists rest. repeat split; trivial.
  constructor; trivial. weaken_range Hrest.
Qed.

(** C6 (as amended). For a start date and an end date before date.max
    (9999-12-31) and a supported interval keyword, [dategrid] returns a list
    in strictly increasing order whose first element is the start date, and
    every later element lies after the start date and not after the end
    date. All elements therefore lie within [start_date, end_date] as soon
    as the start date is not after the end date. *)
Theorem dategrid_sorted_within (startdate enddate : date) (interval : string) :
  In interval supportedintervals ->
  MINORDINAL <= startdate < MAXORDINAL ->
  enddate < MAXORDINAL ->
  exists rest,
    dategrid startdate enddate interval = Ok (startdate :: rest)
    /\ StronglySorted Z.lt (startdate :: rest)
    /\ Forall (fun d => startdate < d <= enddate) rest
    /\ (startdate <= enddate ->
        Forall (fun d => startdate <= d <= enddate) (startdate :: rest)).
Proof.
  intros Hin Hstart Hend.
  assert (Hret : exists dates, dategrid startdate enddate interval = Ok dates).
  { unfold dategrid. apply supported_existsb in Hin. rewrite Hin. simpl negb.
    cbv iota. rewrite add_days_in_range by (unfold MINORDINAL in *; lia).
    apply dategrid_loop_returns; [unfold MINORDINAL in *; lia | assumption]. }
  destruct Hret as (dates & Hdates).
  destruct (dategrid_Ok _ _ _ _ Hdates) as (rest & -> & Hsorted & Hrest).
  exists rest. repeat split; trivial.
  intros Hle. constructor; [lia|]. weaken_range Hrest.
Qed.

Lemma dategrid_sorted_within_witness :
  exists rest,
    dategrid (ymd 2020 1 15) (ymd 2020 4 1) "monthly"
    = Ok (ymd 2020 1 15 :: rest)
    /\ StronglySorted Z.lt (ymd 2020 1 15 :: rest)
    /\ Forall (fun d => ymd 2020 1 15 < d <= ymd 2020 4 1) rest
    /\ (ymd 2020 1 15 <= ymd 2020 4 1 ->
        Forall (fun d => ymd 2020 1 15 <= d <= ymd 2020 4 1)
          (ymd 2020 1 15 :: rest)).
Proof.
  apply (dategrid_sorted_within (ymd 2020 1 15) (ymd 2020 4 1) "monthly").
  - simpl. tauto.
  - vm_compute. split; [discriminate | reflexivity].
  - vm_compute. reflexivity.
Defined.

(** C6, counterexample: with the start date after the end date, the list
    returned holds the start date, which is outside [start_date, end_date]. *)
Lemma dategrid_start_after_end :
  dategrid (ymd 2020 7 1) (ymd 2020 6 1) "monthly" = Ok [ymd 2020 7 1]
  /\ ~ (ymd 2020 7 1 <= ymd 2020 7 1 <= ymd 2020 6 1).
Proof.
  split; [vm_compute; reflexivity|].
  vm_compute. intros [_ H]. apply H. reflexivity.
Qed.

(** The examples of the date grid in the specification. *)
Example dategrid_monthly_example :
  dategrid (ymd 2020 1 15) (ymd 2020 4 1) "monthly"
  = Ok [ymd 2020 1 15; ymd 2020 2 1; ymd 2020 3 1; ymd 2020 4 1].
Proof. vm_compute. reflexivity. Qed.

Example dategrid_yearly_example :
  dategrid (ymd 2020 1 1) (ymd 2020 12 31) "yearly" = Ok [ymd 2020 1 1].
Proof. vm_compute. reflexivity. Qed.

(** C7. An interval that is not one of the five supported keywords makes
    [dategrid] raise an exception whose message names the interval and lists
    the supported keywords; no list is returned. *)
Theorem dategrid_unsupported (startdate enddate : date) (interval : string) :
  ~ In interval supportedintervals ->
  dategrid startdate enddate interval
  = Raise (Exception
             ("Unsupported dategrid interval " +:+ quote +:+ interval +:+ quote
              +:+ ". Pick among monthly, yearly, weekly, biweekly, bimonthly")).
Proof.
  intros Hnot. unfold dategrid.
  destruct (existsb (String.eqb interval) supportedintervals) eqn:Hex.
  - apply supported_existsb in Hex. contradiction.
  - reflexivity.
Qed.

Lemma dategrid_unsupported_witness :
  dategrid (ymd 2020 1 1) (ymd 2020 2 1) "daily"
  = Raise (Exception
             ("Unsupported dategrid interval " +:+ quote +:+ "daily" +:+ quote
              +:+ ". Pick among monthly, yearly, weekly, biweekly, bimonthly")).
Proof.
  apply (dategrid_unsupported (ymd 2020 1 1) (ymd 2020 2 1) "daily").
  simpl. intros H. repeat destruct H as [H | H]; try discriminate H. exact H.
Defined.

(** ** Substitution *)

(* A line that holds none of the tokens is left as it is. *)
Lemma substitute_line_no_token (substdict : list (string * yaml))
    (line : string) :
  Forall (fun item => contains ("<" +:+ fst item +:+ ">") line = false)
    substdict ->
  substitute_line substdict line = line.
Proof.
  unfold substitute_line. induction 1 as [|item rest Hitem _ IH]; simpl.
  - reflexivity.
  - unfold substitute_key at 2. rewrite Hitem. exact IH.
Qed.

(** ** The schedule document *)

Lemma dt_eqb_eq (a b : datetime) : dt_eqb a b = true <-> a = b.
Proof.
  unfold dt_eqb. rewrite andb_true_iff, !Z.eqb_eq.
  destruct a, b; simpl. split.
  - intros [-> ->]. reflexivity.
  - intros H. inversion H. auto.
Qed.

Lemma dt_eqb_refl (a : datetime) : dt_eqb a a = true.
Proof. now apply dt_eqb_eq. Qed.

Lemma dates_add_keywords (tv : TimeVector.t) (dt : datetime)
    (keywords : list string) (x : datetime) :
  In x (TimeVector.dates (TimeVector.add_keywords tv dt keywords))
  <-> x = dt \/ In x (TimeVector.dates tv).
Proof.
  induction tv as [|[d ks] rest IH]; simpl.
  - intuition.
  - destruct (dt_eqb d dt) eqn:Heq.
    + apply dt_eqb_eq in Heq. subst d. simpl. intuition.
    + destruct (dt_ltb dt d); simpl; [intuition|].
      rewrite IH. intuition.
Qed.

Lemma dates_delete (tv : TimeVector.t) (dt x : datetime) :
  In x (TimeVector.dates (TimeVector.delete tv dt))
  <-> In x (TimeVector.dates tv) /\ x <> dt.
Proof.
  unfold TimeVector.dates, TimeVector.delete.
  rewrite !in_map_iff. split.
  - intros (step & <- & Hin). apply filter_In in Hin as [Hin Hne].
    split; [eauto|]. intros Heq. apply dt_eqb_eq in Heq.
    rewrite Heq in Hne. discriminate.
  - intros [(step & <- & Hin) Hne]. exists step. split; trivial.
    apply filter_In. split; trivial.
    destruct (dt_eqb (fst step) dt) eqn:Heq; trivial.
    apply dt_eqb_eq in Heq. contradiction.
Qed.

(* What a date marker added on its own looks like afterwards. *)
Lemma keywords_at_add_new (tv : TimeVector.t) (dt : datetime)
    (keywords : list string) :
  ~ In dt (TimeVector.dates tv) ->
  TimeVector.keywords_at (TimeVector.add_keywords tv dt keywords) dt
  = Some keywords.
Proof.
  unfold TimeVector.keywords_at.
  induction tv as [|[d ks] rest IH]; simpl; intros Hnew.
  - now rewrite dt_eqb_refl.
  - destruct (dt_eqb d dt) eqn:Heq.
    + apply dt_eqb_eq in Heq. tauto.
    + destruct (dt_ltb dt d); simpl.
      * now rewrite dt_eqb_refl.
      * rewrite Heq. apply IH. tauto.
Qed.

Lemma keywords_at_add_more (tv : TimeVector.t) (dt dt' : datetime)
    (ks keywords : list string) :
  TimeVector.keywords_at tv dt = Some ks ->
  exists ks',
    TimeVector.keywords_at (TimeVector.add_keywords tv dt' keywords) dt
    = Some ks'
    /\ (forall k, In k ks' -> In k ks \/ In k keywords).
Proof.
  unfold TimeVector.keywords_at.
  induction tv as [|[d old] rest IH]; simpl; [discriminate|].
  destruct (dt_eqb d dt) eqn:Hd; simpl.
  - intros [= <-]. destruct (dt_eqb d dt') eqn:Hd'; simpl.
    + rewrite Hd. simpl. eexists. split; [reflexivity|].
      intros k Hk. apply in_app_or in Hk. exact Hk.
    + destruct (dt_ltb dt' d); simpl.
      * destruct (dt_eqb dt' dt) eqn:Hsame.
        { apply dt_eqb_eq in Hsame, Hd. subst.
          rewrite dt_eqb_refl in Hd'. discriminate. }
        rewrite Hd. simpl. eauto.
      * rewrite Hd. simpl. eauto.
  - intros Hrest. destruct (dt_eqb d dt') eqn:Hd'; simpl.
    + rewrite Hd. auto using IH. simpl in *. eauto.
    + destruct (dt_ltb dt' d); simpl.
      * destruct (dt_eqb dt' dt) eqn:Hsame.
        { simpl. eexists. split; [reflexivity|]. auto. }
        rewrite Hd. eauto.
      * rewrite Hd. apply IH. exact Hrest.
Qed.

(** ** The final passes *)

Lemma clip_step_dates (snapshot : list datetime) (schedule : TimeVector.t)
    (enddate : date) (x : datetime) :
  In x (TimeVector.dates
          (fold_left
             (fun schedule dt =>
                if enddate <? dt_date dt then TimeVector.delete schedule dt
                else schedule)
             snapshot schedule))
  <-> In x (TimeVector.dates schedule)
      /\ ~ (In x snapshot /\ enddate < dt_date x).
Proof.
  revert schedule. induction snapshot as [|dt rest IH]; intros schedule.
  - simpl. tauto.
  - simpl fold_left. rewrite IH.
    destruct (enddate <? dt_date dt) eqn:Hlate.
    + apply Z.ltb_lt in Hlate. rewrite dates_delete. simpl In. split.
      * intros [[Hin Hne] Hkeep]. split; trivial.
        intros [[-> | Hrest] Hx]; tauto.
      * intros [Hin Hkeep]. split; [split; trivial|].
        -- intros ->. tauto.
        -- tauto.
    + apply Z.ltb_ge in Hlate. simpl In. split.
      * intros [Hin Hkeep]. split; trivial.
        intros [[-> | Hrest] Hx]; [lia | tauto].
      * intros [Hin Hkeep]. split; trivial. tauto.
Qed.

(* The clip pass keeps the entries dated on or before the end date. *)
Lemma clip_dates (schedule : TimeVector.t) (enddate : date) (x : datetime) :
  In x (TimeVector.dates (clip schedule enddate))
  <-> In x (TimeVector.dates schedule) /\ dt_date x <= enddate.
Proof.
  unfold clip. rewrite clip_step_dates. split.
  - intros [Hin Hkeep]. split; trivial.
    destruct (Z_le_dec (dt_date x) enddate); trivial.
    exfalso. apply Hkeep. split; trivial. lia.
  - intros [Hin Hle]. split; trivial. intros [_ Hlate]. lia.
Qed.

Lemma mentioned_iff (schedule : TimeVector.t) (enddate : date) :
  existsb (Z.eqb enddate) (map dt_date (TimeVector.dates schedule)) = true
  <-> In enddate (map dt_date (TimeVector.dates schedule)).
Proof.
  rewrite existsb_exists. split.
  - intros (x & Hin & Heq). apply Z.eqb_eq in Heq. now subst.
  - intros Hin. exists enddate. split; trivial. apply Z.eqb_refl.
Qed.

Lemma dates_markers (ds : list date) (schedule : TimeVector.t) (x : datetime) :
  In x (TimeVector.dates
          (fold_left
             (fun schedule d =>
                TimeVector.add_keywords schedule (datetime_from_date d)
                  [EmptyString])
             ds schedule))
  <-> In x (TimeVector.dates schedule) \/ In x (map datetime_from_date ds).
Proof.
  revert schedule. induction ds as [|d rest IH]; intros schedule; simpl.
  - tauto.
  - rewrite IH, dates_add_keywords. intuition.
Qed.

(** ** process_sch_config *)

Section AssemblerProperties.

Variable parse : list string -> string + TimeVector.fragment.
Variable TimeVector_new : date -> TimeVector.t.

Lemma bind_Ok {A B} (c : M A) (k : A -> M B) fs fs' (b : B) :
  bind c k fs = (fs', Ok b) ->
  exists a fs1, c fs = (fs1, Ok a) /\ k a fs1 = (fs', Ok b).
Proof.
  unfold bind. destruct (c fs) as [fs1 [a|e]]; [eauto | discriminate].
Qed.

Lemma resolve_enddate_default_refdate (sunschconf : config) schedule :
  resolve_enddate (default_refdate sunschconf) schedule
  = resolve_enddate sunschconf schedule.
Proof.
  unfold resolve_enddate, default_refdate.
  destruct (c_refdate sunschconf), (c_startdate sunschconf); reflexivity.
Qed.



(* A successful call went through the loading passes and the final
   passes. *)
Lemma process_sch_config_Ok (sunschconf : config) fs fs' tv :
  process_sch_config parse TimeVector_new sunschconf fs = (fs', Ok tv) ->
  exists schedule enddate,
    load_all parse TimeVector_new sunschconf fs = (fs', Ok schedule)
    /\ resolve_enddate sunschconf schedule = Ok enddate
    /\ add_dategrid (default_refdate sunschconf)
         (mention_enddate (clip schedule enddate) enddate) enddate = Ok tv.
Proof.
  unfold process_sch_config. intros Hrun.
  apply bind_Ok in Hrun as (schedule & fs1 & Hload & Hfinish).
  unfold lift in Hfinish. injection Hfinish as -> Hfinish.
  unfold finish in Hfinish. rewrite resolve_enddate_default_refdate in Hfinish.
  destruct (resolve_enddate sunschconf schedule) as [enddate|] eqn:Hend;
    [|discriminate].
  eauto.
Qed.

(* The date grid pass only adds dates. *)
Lemma add_dategrid_keeps (sunschconf : config) schedule enddate tv x :
  add_dategrid sunschconf schedule enddate = Ok tv ->
  In x (TimeVector.dates schedule) -> In x (TimeVector.dates tv).
Proof.
  unfold add_dategrid.
  destruct (c_dategrid sunschconf) as [interval|].
  - destruct (c_startdate sunschconf) as [startdate|]; [|discriminate].
    destruct (dategrid startdate enddate interval); [|discriminate].
    intros [= <-] Hin. apply dates_markers. auto.
  - intros [= <-]. trivial.
Qed.

Lemma markers_keep_empty (ds : list date) schedule dt ks :
  TimeVector.keywords_at schedule dt = Some ks ->
  (forall k, In k ks -> k = EmptyString) ->
  exists ks',
    TimeVector.keywords_at
      (fold_left
         (fun schedule d =>
            TimeVector.add_keywords schedule (datetime_from_date d)
              [EmptyString])
         ds schedule) dt = Some ks'
    /\ (forall k, In k ks' -> k = EmptyString).
Proof.
  revert schedule ks. induction ds as [|d rest IH]; intros schedule ks Hat Hks.
  - simpl. eauto.
  - simpl.
    destruct (keywords_at_add_more schedule dt (datetime_from_date d) ks
                [EmptyString] Hat) as (ks' & Hat' & Hks').
    apply (IH _ ks' Hat'). intros k Hk.
    destruct (Hks' k Hk) as [Hold | [<- | []]]; auto.
Qed.

(** C1. After a successful call the returned schedule has an entry whose
    date is the resolved end date. When nothing loaded or inserted was
    dated at the end date, that entry is the marker added at the end date,
    and all it holds is empty content. *)
Theorem enddate_is_mentioned (sunschconf : config) fs fs' tv :
  process_sch_config parse TimeVector_new sunschconf fs = (fs', Ok tv) ->
  exists schedule enddate,
    load_all parse TimeVector_new sunschconf fs = (fs', Ok schedule)
    /\ resolve_enddate sunschconf schedule = Ok enddate
    /\ In enddate (map dt_date (TimeVector.dates tv))
    /\ (~ In enddate (map dt_date (TimeVector.dates schedule)) ->
        exists ks,
          TimeVector.keywords_at tv (datetime_from_date enddate) = Some ks
          /\ forall k, In k ks -> k = EmptyString).
Proof.
  intros Hrun.
  apply process_sch_config_Ok in Hrun as (schedule & enddate & Hload & Hend & Hgrid).
  exists schedule, enddate. repeat split; trivial.
  - assert (Hin : In enddate
                    (map dt_date
                       (TimeVector.dates
                          (mention_enddate (clip schedule enddate) enddate)))).
    { unfold mention_enddate.
      destruct (existsb _ _) eqn:Hex.
      - now apply mentioned_iff in Hex.
      - apply in_map_iff. exists (datetime_from_date enddate).
        split; trivial. apply dates_add_keywords. auto. }
    apply in_map_iff in Hin as (x & <- & Hx). apply in_map.
    eapply add_dategrid_keeps; eauto.
  - intros Habsent.
    assert (Hclipped : ~ In (datetime_from_date enddate)
                         (TimeVector.dates (clip schedule enddate))).
    { intros Hin. apply clip_dates in Hin as [Hin _]. apply Habsent.
      apply in_map_iff. exists (datetime_from_date enddate). auto. }
    assert (Hmarker :
              TimeVector.keywords_at
                (mention_enddate (clip schedule enddate) enddate)
                (datetime_from_date enddate) = Some [EmptyString]).
    { unfold mention_enddate.
      destruct (existsb _ _) eqn:Hex.
      - apply mentioned_iff, in_map_iff in Hex as (x & Hx & Hin).
        apply clip_dates in Hin as [Hin _]. exfalso. apply Habsent.
        apply in_map_iff. eauto.
      - now apply keywords_at_add_new. }
    revert Hgrid. unfold add_dategrid.
    destruct (c_dategrid _) as [interval|].
    + destruct (c_startdate _) as [startdate|]; [|discriminate].
      destruct (dategrid startdate enddate interval) as [ds|]; [|discriminate].
      intros [= <-]. eapply markers_keep_empty; [exact Hmarker|].
      intros k [<- | []]. reflexivity.
    + intros [= <-]. exists [EmptyString]. split; trivial.
      intros k [<- | []]. reflexivity.
Qed.

(** C3. Without startdate and without refdate the call raises the
    exception "No startdate or refdate given"; nothing has been read or
    written by then and no schedule is returned. *)
Theorem no_startdate_no_refdate (sunschconf : config) fs :
  c_startdate sunschconf = None ->
  c_refdate sunschconf = None ->
  process_sch_config parse TimeVector_new sunschconf fs
  = (fs, Raise (Exception "No startdate or refdate given")).
Proof.
  intros Hstart Href.
  unfold process_sch_config, load_all, load_and_merge, new_schedule, bind.
  rewrite Hstart, Href. reflexivity.
Qed.

(** C9. With an init file and a refdate but no startdate, the call raises
    KeyError on 'startdate': the init file is not loaded at the base date,
    and the failure is not the exception raised for a missing base date. *)
Theorem init_needs_startdate (sunschconf : config) fs refdate init :
  c_startdate sunschconf = None ->
  c_refdate sunschconf = Some refdate ->
  c_init sunschconf = Some init ->
  process_sch_config parse TimeVector_new sunschconf fs = (fs, Raise (KeyError "startdate")).
Proof.
  intros Hstart Href Hinit.
  unfold process_sch_config, load_all, load_and_merge, new_schedule, load_init,
    default_refdate, bind.
  rewrite Hstart, Href. simpl. rewrite Hinit, Hstart. reflexivity.
Qed.




(** *** Files created on the way *)

Lemma keeps_ret {A} (a : A) : keeps_files (ret a).
Proof. intros fs. reflexivity. Qed.

Lemma keeps_raise {A} (e : exn) : keeps_files (@raise A e).
Proof. intros fs. reflexivity. Qed.

Lemma keeps_lift {A} (r : result A) : keeps_files (lift r).
Proof. intros fs. reflexivity. Qed.

Lemma keeps_bind {A B} (c : M A) (k : A -> M B) :
  keeps_files c -> (forall a, keeps_files (k a)) -> keeps_files (bind c k).
Proof.
  intros Hc Hk fs. unfold bind. specialize (Hc fs).
  destruct (c fs) as [fs1 [a|e]]; simpl in *; trivial.
  specialize (Hk a fs1). set_solver.
Qed.

Lemma keeps_for_each {A S} (body : A -> S -> M S) (xs : list A) (acc : S) :
  (forall x s, keeps_files (body x s)) -> keeps_files (for_each body xs acc).
Proof.
  intros Hbody. revert acc.
  induction xs as [|x rest IH]; intros acc; simpl.
  - apply keeps_ret.
  - apply keeps_bind; auto.
Qed.

Lemma keeps_read_var {A} name (v : option A) : keeps_files (read_var name v).
Proof. destruct v; [apply keeps_ret | apply keeps_raise]. Qed.

Lemma keeps_getitem {A} key (v : option A) : keeps_files (getitem key v).
Proof. destruct v; [apply keeps_ret | apply keeps_raise]. Qed.

Lemma keeps_schedule_load schedule source date :
  keeps_files (schedule_load parse schedule source date).
Proof. intros fs. reflexivity. Qed.

Lemma keeps_NamedTemporaryFile : keeps_files NamedTemporaryFile.
Proof. intros fs. simpl. rewrite dom_insert_L. set_solver. Qed.

Lemma keeps_readlines filename : keeps_files (readlines filename).
Proof. intros fs. unfold readlines. destruct (fs !! filename); reflexivity. Qed.

Lemma keeps_write_lines filename lines :
  keeps_files (write_lines filename lines).
Proof. intros fs. simpl. rewrite dom_insert_L. set_solver. Qed.

Lemma keeps_merge_file file schedule :
  keeps_files (merge_file parse file schedule).
Proof.
  intros fs. unfold merge_file, schedule_load.
  destruct (TimeVector.load parse fs schedule file None) as [tv|[]];
    reflexivity.
Qed.

Lemma keeps_substitute file resultfilename filename :
  keeps_files (substitute file resultfilename filename).
Proof.
  unfold substitute. destruct (i_substitute file); [|apply keeps_ret].
  apply keeps_bind; [apply keeps_read_var|]. intros name.
  apply keeps_bind; [apply keeps_readlines|]. intros templatelines.
  apply keeps_bind; [apply keeps_write_lines|]. intros _. apply keeps_ret.
Qed.

Lemma keeps_place file schedule filename date :
  keeps_files (place parse file schedule filename date).
Proof.
  unfold place. destruct (i_string file).
  - apply keeps_bind; [apply keeps_read_var|]. intros dt. apply keeps_ret.
  - apply keeps_bind; [apply keeps_read_var|]. intros name.
    apply keeps_bind; [apply keeps_read_var|]. intros dt.
    apply keeps_schedule_load.
Qed.

Lemma process_insert_unfold sunschconf file vars fs :
  process_insert parse sunschconf file vars fs
  = after_tempfile parse sunschconf file vars (fresh_string "/tmp/tmp" fs)
      (<[fresh_string "/tmp/tmp" fs := []]> fs).
Proof. reflexivity. Qed.

Lemma keeps_after_tempfile sunschconf file vars resultfilename :
  keeps_files (after_tempfile parse sunschconf file vars resultfilename).
Proof.
  unfold after_tempfile.
  apply keeps_bind; [apply keeps_substitute|]. intros filename.
  apply keeps_bind; [apply keeps_lift|]. intros date.
  apply keeps_bind; [apply keeps_place|]. intros schedule. apply keeps_ret.
Qed.

Lemma keeps_process_insert sunschconf file vars :
  keeps_files (process_insert parse sunschconf file vars).
Proof.
  intros fs. rewrite process_insert_unfold.
  pose proof (keeps_after_tempfile sunschconf file vars
                (fresh_string "/tmp/tmp" fs)
                (<[fresh_string "/tmp/tmp" fs := []]> fs)) as Hrest.
  rewrite dom_insert_L in Hrest. set_solver.
Qed.

Lemma keeps_insert_files sunschconf schedule :
  keeps_files (insert_files parse sunschconf schedule).
Proof.
  unfold insert_files. destruct (c_insert sunschconf); [|apply keeps_ret].
  apply keeps_bind.
  - apply keeps_for_each. intros; apply keeps_process_insert.
  - intros vars. apply keeps_ret.
Qed.

Lemma keeps_load_and_merge sunschconf :
  keeps_files (load_and_merge parse TimeVector_new sunschconf).
Proof.
  unfold load_and_merge. apply keeps_bind.
  - unfold new_schedule.
    destruct (c_startdate sunschconf); [apply keeps_ret|].
    destruct (c_refdate sunschconf); [apply keeps_ret | apply keeps_raise].
  - intros schedule. apply keeps_bind.
    + unfold load_init. destruct (c_init _); [|apply keeps_ret].
      apply keeps_bind; [apply keeps_getitem|]. intros startdate.
      apply keeps_schedule_load.
    + intros schedule'. unfold merge_files.
      destruct (c_merge _); [|apply keeps_ret].
      apply keeps_for_each. intros; apply keeps_merge_file.
Qed.

Lemma keeps_process_sch_config sunschconf :
  keeps_files (process_sch_config parse TimeVector_new sunschconf).
Proof.
  unfold process_sch_config, load_all.
  apply keeps_bind; [|intros; apply keeps_lift].
  apply keeps_bind; [apply keeps_load_and_merge|].
  intros schedule. apply keeps_insert_files.
Qed.

(* The temporary file of a loop iteration is new, and is there when the
   iteration ends, whether it returns or raises. *)
Lemma process_insert_leaves_tempfile sunschconf file vars fs :
  (fresh_string "/tmp/tmp" fs ∉ dom fs)
  /\ (fresh_string "/tmp/tmp" fs
      ∈ dom (fst (process_insert parse sunschconf file vars fs))).
Proof.
  split.
  - apply not_elem_of_dom, fresh_string_fresh.
  - rewrite process_insert_unfold.
    apply (keeps_after_tempfile sunschconf file vars _ _).
    rewrite dom_insert_L. set_solver.
Qed.

Lemma for_each_app {A S} (body : A -> S -> M S) (xs ys : list A) (acc : S)
    fs :
  for_each body (xs ++ ys) acc fs
  = bind (for_each body xs acc) (for_each body ys) fs.
Proof.
  revert acc fs. induction xs as [|x rest IH]; intros acc fs; simpl.
  - reflexivity.
  - unfold bind in *.
    destruct (body x acc fs) as [fs1 [acc'|e]]; [|reflexivity].
    apply IH.
Qed.

Lemma insert_default_refdate (sunschconf : config) :
  c_insert (default_refdate sunschconf) = c_insert sunschconf.
Proof.
  unfold default_refdate.
  destruct (c_refdate sunschconf) eqn:Href, (c_startdate sunschconf) eqn:Hstart;
    simpl; congruence.
Qed.

(* The files a call ends with, when the insert loop is reached and the
   loop has gone through the insertions [before]. *)
Lemma files_after_inserts sunschconf fs fs0 schedule before file after
    fs1 vars :
  load_and_merge parse TimeVector_new sunschconf fs = (fs0, Ok schedule) ->
  c_insert sunschconf = Some (before ++ file :: after)%list ->
  for_each (process_insert parse (default_refdate sunschconf)) before
    (first_locals schedule) fs0 = (fs1, Ok vars) ->
  fst (process_sch_config parse TimeVector_new sunschconf fs)
  = fst (bind (process_insert parse (default_refdate sunschconf) file vars)
           (for_each (process_insert parse (default_refdate sunschconf))
              after) fs1).
Proof.
  intros Hprefix Hinsert Hbefore.
  unfold process_sch_config, load_all, bind at 1 2. rewrite Hprefix.
  unfold insert_files, bind at 1. rewrite insert_default_refdate, Hinsert.
  rewrite for_each_app. fold (first_locals schedule).
  unfold bind at 1. rewrite Hbefore. simpl for_each.
  destruct (bind _ _ fs1) as [fs' [vars'|e]]; reflexivity.
Qed.

(** C8 (as amended). No file is ever removed by the call, and the
    temporary file created for an insertion (with or without a
    substitution) is never deleted: it did not exist before the
    insertion was processed and it exists when the call ends, whether the
    call returns or raises. *)
Theorem temporary_files_persist (sunschconf : config) :
  (forall fs,
      dom fs ⊆ dom (fst (process_sch_config parse TimeVector_new sunschconf fs)))
  /\ (forall fs fs0 schedule before file after fs1 vars,
         load_and_merge parse TimeVector_new sunschconf fs
         = (fs0, Ok schedule) ->
         c_insert sunschconf = Some (before ++ file :: after)%list ->
         for_each (process_insert parse (default_refdate sunschconf)) before
           (first_locals schedule) fs0 = (fs1, Ok vars) ->
         (fresh_string "/tmp/tmp" fs1 ∉ dom fs1)
         /\ (fresh_string "/tmp/tmp" fs1
             ∈ dom (fst (process_sch_config parse TimeVector_new
                           sunschconf fs)))).
Proof.
  split; [apply keeps_process_sch_config|].
  intros fs fs0 schedule before file after fs1 vars Hprefix Hinsert Hbefore.
  destruct (process_insert_leaves_tempfile (default_refdate sunschconf)
              file vars fs1) as [Hnew Hthere].
  split; trivial.
  rewrite (files_after_inserts _ _ _ _ _ _ _ _ _ Hprefix Hinsert Hbefore).
  unfold bind.
  destruct (process_insert _ _ _ _ fs1) as [fs2 [vars2|e]]; trivial.
  simpl in Hthere.
  apply (keeps_for_each (process_insert parse (default_refdate sunschconf))
           after vars2 (keeps_process_insert _) fs2).
  exact Hthere.
Qed.

(** *** The date of an insertion *)



(* The text of an inline insertion is added as it is written in the
   configuration, with or without a substitution. *)
Lemma inline_text_added_as_is sunschconf file vars fs fs1 vars1 text :
  i_string file = Some text ->
  process_insert parse sunschconf file vars fs = (fs1, Ok vars1) ->
  exists dt,
    v_schedule vars1
    = TimeVector.add_keywords (v_schedule vars)
        (datetime_from_date (dt_date dt)) [text].
Proof.
  rewrite process_insert_unfold. unfold after_tempfile. intros Htext Hrun.
  apply bind_Ok in Hrun as (filename & fs2 & _ & Hrun).
  apply bind_Ok in Hrun as (date & fs3 & _ & Hrun).
  apply bind_Ok in Hrun as (schedule & fs4 & Hplace & Hrun).
  unfold ret in Hrun. injection Hrun as _ <-. simpl.
  unfold place in Hplace. rewrite Htext in Hplace.
  apply bind_Ok in Hplace as (dt & fs5 & _ & Hplace).
  unfold ret in Hplace. injection Hplace as _ <-. eauto.
Qed.

Lemma bind_Raise {A B} (c : M A) (k : A -> M B) fs fs' e :
  bind c k fs = (fs', Raise e) ->
  c fs = (fs', Raise e)
  \/ exists a fs1, c fs = (fs1, Ok a) /\ k a fs1 = (fs', Raise e).
Proof.
  unfold bind. destruct (c fs) as [fs1 [a|e1]]; [eauto|].
  intros [= -> ->]. auto.
Qed.

Lemma read_var_Raise {A} name (v : option A) fs fs' e :
  read_var name v fs = (fs', Raise e) -> e = NameError name.
Proof. destruct v; simpl; [discriminate|]. now intros [= _ <-]. Qed.

Lemma schedule_load_Raise schedule source date fs fs' e :
  schedule_load parse schedule source date fs = (fs', Raise e) ->
  e = IOError source \/ exists msg, e = ValueError msg.
Proof.
  unfold schedule_load, TimeVector.load. intros [= _ Hload]. revert Hload.
  destruct (fs !! source) as [lines|]; [|intros [= <-]; auto].
  destruct (parse lines) as [msg|frag]; [intros [= <-]; eauto|].
  destruct (TimeVector.leading frag), date; try discriminate.
  intros [= <-]. eauto.
Qed.




End AssemblerProperties.

(** C2 (as amended). When an insertion has both a date and a days entry, the
    date it is inserted at is refdate + days: the days entry, looked at
    last, overrides the date entry. *)
Theorem days_overrides_date (sunschconf : config) (file : insertion)
    (d : date) (days : Z) (refdate : date) (date : option datetime) :
  i_date file = Some d ->
  i_days file = Some days ->
  c_refdate sunschconf = Some refdate ->
  MINORDINAL <= refdate + days <= MAXORDINAL ->
  resolve_date sunschconf file date = Ok (Some (midnight (refdate + days))).
Proof.
  intros Hdate Hdays Href Hrange. unfold resolve_date.
  rewrite Hdays, Href, add_days_in_range by exact Hrange. reflexivity.
Qed.

(** ** The properties at sample inputs *)

Import Sample.

Lemma enddate_is_mentioned_witness :
  exists schedule enddate,
    load_all parse_plain empty_document monthly_2020 ∅ = (∅, Ok schedule)
    /\ resolve_enddate monthly_2020 schedule = Ok enddate
    /\ In enddate (map dt_date (TimeVector.dates monthly_2020_schedule))
    /\ (~ In enddate (map dt_date (TimeVector.dates schedule)) ->
        exists ks,
          TimeVector.keywords_at monthly_2020_schedule
            (datetime_from_date enddate) = Some ks
          /\ forall k, In k ks -> k = EmptyString).
Proof.
  apply (enddate_is_mentioned parse_plain empty_document monthly_2020 ∅ ∅
           monthly_2020_schedule).
  vm_compute. reflexivity.
Defined.

(** The end-to-end example of the specification: six marker dates. *)
Example monthly_2020_dates :
  snd (process_sch_config parse_plain empty_document monthly_2020 ∅)
  = Ok monthly_2020_schedule
  /\ TimeVector.dates monthly_2020_schedule
     = map (fun m => midnight (ymd 2020 m 1)) [1; 2; 3; 4; 5; 6].
Proof. split; vm_compute; reflexivity. Qed.

Lemma no_startdate_no_refdate_witness :
  process_sch_config parse_plain empty_document no_keys foo_sch
  = (foo_sch, Raise (Exception "No startdate or refdate given")).
Proof.
  apply (no_startdate_no_refdate parse_plain empty_document no_keys foo_sch);
    reflexivity.
Defined.

Lemma init_needs_startdate_witness :
  process_sch_config parse_plain empty_document init_without_startdate foo_sch
  = (foo_sch, Raise (KeyError "startdate")).
Proof.
  apply (init_needs_startdate parse_plain empty_document
           init_without_startdate foo_sch (ymd 2020 1 1) "init.sch");
    reflexivity.
Defined.


(** The clip example of the specification: an entry dated 2020-07-01 is
    not in the schedule returned with the end date 2020-06-01. *)
Example clip_example :
  finish monthly_2020 february_content = Ok february_finished
  /\ ~ In (midnight (ymd 2020 7 1)) (TimeVector.dates february_finished).
Proof.
  split; [vm_compute; reflexivity|].
  simpl. intros H. repeat destruct H as [H | H]; try discriminate H.
  exact H.
Qed.

Lemma days_overrides_date_witness :
  resolve_date (default_refdate (with_inserts [date_and_days])) date_and_days
    None
  = Ok (Some (midnight (ymd 2020 1 1 + 10))).
Proof.
  apply (days_overrides_date (default_refdate (with_inserts [date_and_days]))
           date_and_days (ymd 2020 3 1) 10 (ymd 2020 1 1) None);
    try reflexivity.
  vm_compute. split; discriminate.
Defined.

(** C2, counterexample: an insertion with date 2020-03-01 and days 10, with
    the reference date 2020-01-01, is inserted at 2020-01-11 and not at the
    date of its date entry. *)
Lemma date_entry_is_overridden :
  resolve_date (default_refdate (with_inserts [date_and_days])) date_and_days
    None
  = Ok (Some (midnight (ymd 2020 1 11)))
  /\ midnight (ymd 2020 1 11) <> midnight (ymd 2020 3 1)
  /\ snd (process_sch_config parse_plain empty_document
            (with_inserts [date_and_days]) ∅)
     = Ok [(midnight (ymd 2020 1 11), ["WCONHIST"])].
Proof.
  split; [vm_compute; reflexivity|].
  split; [vm_compute; discriminate|].
  vm_compute. reflexivity.
Qed.

(** The substitution example of the specification, for a line of a file. *)
Example substitute_line_example :
  substitute_line [("NAME", YStr "P1")] "WELSPECS <NAME> 'G1' <GROUP>"
  = "WELSPECS P1 'G1' <GROUP>".
Proof. vm_compute. reflexivity. Qed.

(** C5, the code at the failing input: an inline text with a substitution.
    As the first insertion the call raises NameError on filename; after an
    insertion from a file, the text is added to the schedule with its token
    still in it (the token of the file has been replaced), whereas the
    substitution applied to the text gives "WELSPECS P1". *)
Theorem inline_text_is_not_substituted :
  snd (process_sch_config parse_plain empty_document
         (with_inserts [templated_string]) foo_sch)
  = Raise (NameError "filename")
  /\ snd (process_sch_config parse_plain empty_document
            (with_inserts [templated_file; templated_string]) foo_sch)
     = Ok [(midnight (ymd 2020 3 1),
            ["WELSPECS P1 'G1' <GROUP>"; "WELSPECS <NAME>"])]
  /\ substitute_line [("NAME", YStr "P1")] "WELSPECS <NAME>" = "WELSPECS P1".
Proof. repeat split; vm_compute; reflexivity. Qed.

Lemma temporary_files_persist_witness :
  (fresh_string "/tmp/tmp" foo_sch ∉ dom foo_sch)
  /\ (fresh_string "/tmp/tmp" foo_sch
      ∈ dom (fst (process_sch_config parse_plain empty_document
                    (with_inserts [templated_file]) foo_sch))).
Proof.
  apply (proj2 (temporary_files_persist parse_plain empty_document
                  (with_inserts [templated_file]))
           foo_sch foo_sch [] [] templated_file [] foo_sch (first_locals []));
    vm_compute; reflexivity.
Defined.

(** C8, counterexample: an insertion from a file with a substitution. The
    call returns, and the temporary file with the substituted content, which
    did not exist before, is still there. *)
Lemma tempfile_left_behind :
  snd (process_sch_config parse_plain empty_document
         (with_inserts [templated_file]) foo_sch)
  = Ok [(midnight (ymd 2020 3 1), ["WELSPECS P1 'G1' <GROUP>"])]
  /\ foo_sch !! "/tmp/tmp" = None
  /\ fst (process_sch_config parse_plain empty_document
            (with_inserts [templated_file]) foo_sch) !! "/tmp/tmp"
     = Some ["WELSPECS P1 'G1' <GROUP>"].
Proof. repeat split; vm_compute; reflexivity. Qed.


(** The two cases of an insertion without date and days, run. *)
Example undated_first_insertion :
  snd (process_sch_config parse_plain empty_document
         (with_inserts [undated_string]) ∅)
  = Raise (NameError "date").
Proof. vm_compute. reflexivity. Qed.

Example undated_later_insertion :
  snd (process_sch_config parse_plain empty_document
         (with_inserts [date_and_days; undated_string]) ∅)
  = Ok [(midnight (ymd 2020 1 11), ["WCONHIST"; "COMPDAT"])].
Proof. vm_compute. reflexivity. Qed.


(** * Further properties *)

(** ** The date grid, day by day *)

Lemma add_days_Raise (d n : date) (e : exn) :
  add_days d n = Raise e -> e = OverflowError.
Proof.
  unfold add_days. destruct (_ && _)%bool; [discriminate|]. now intros [= <-].
Qed.

Section DategridDays.

Variables (interval : string) (startdateweekday : Z) (enddate : date).

Ltac forget_call_equations :=
  repeat match goal with
         | H : sigmaI _ _ _ = _ |- _ => clear H
         | H : dategrid_loop _ _ _ _ _ = dategrid_loop _ _ _ _ _ |- _ =>
             clear H
         end.

(* The loop appends the days of [d .. enddate] that are on the grid, in
   calendar order. *)
Lemma dategrid_loop_filter (d : date) (dates out : list date) :
  dategrid_loop interval startdateweekday enddate d dates = Ok out ->
  out = (dates
         ++ List.filter (on_grid interval startdateweekday)
              (seqZ d (enddate + 1 - d)))%list.
Proof.
  revert out.
  funelim (dategrid_loop interval startdateweekday enddate d dates);
    intros out Hout; forget_call_equations.
  - injection Hout as <-. rewrite seqZ_nil by lia. simpl.
    now rewrite app_nil_r.
  - match goal with
    | Hadd : add_days _ 1 = Ok _ |- _ =>
        pose proof (add_days_Ok _ _ _ Hadd) as [Hd' _]; clear Hadd
    end.
    subst d'.
    match goal with
    | IH : forall out, _ = Ok out -> _ |- _ => rewrite (IH out Hout)
    end.
    rewrite (seqZ_cons d) by lia. simpl List.filter.
    replace (Z.succ d) with (d + 1) by lia.
    replace (Z.pred (enddate + 1 - d)) with (enddate + 1 - (d + 1)) by lia.
    destruct (on_grid interval startdateweekday d).
    + now rewrite <- app_assoc.
    + reflexivity.
  - discriminate.
Qed.

(* With the end date on the last day of the calendar the loop cannot step
   past it. *)
Lemma dategrid_loop_overflow (d : date) (dates : list date) :
  d <= MAXORDINAL -> MAXORDINAL <= enddate ->
  dategrid_loop interval startdateweekday enddate d dates
  = Raise OverflowError.
Proof.
  funelim (dategrid_loop interval startdateweekday enddate d dates);
    intros Hd Hend; forget_call_equations.
  - lia.
  - match goal with
    | Hadd : add_days _ 1 = Ok _, IH : _ -> _ -> _ = Raise _ |- _ =>
        apply add_days_Ok in Hadd as [-> Hrange]; apply IH; lia
    end.
  - match goal with
    | Hadd : add_days _ 1 = Raise _ |- _ =>
        apply add_days_Raise in Hadd as ->; reflexivity
    end.
Qed.

End DategridDays.

(* Whatever [dategrid] returns is the start date followed by the days
   after it, up to the end date, that the interval selects. *)
Lemma dategrid_Ok_filter (startdate enddate : date) (interval : string)
    (dates : list date) :
  dategrid startdate enddate interval = Ok dates ->
  dates
  = startdate
    :: List.filter (on_grid interval (weekday startdate))
         (seqZ (startdate + 1) (enddate - startdate)).
Proof.
  unfold dategrid.
  destruct (negb _); [discriminate|].
  destruct (add_days startdate 1) as [d|] eqn:Hadd; [|discriminate].
  apply add_days_Ok in Hadd as [-> _]. intros Hloop.
  apply dategrid_loop_filter in Hloop as ->. simpl.
  do 3 f_equal. lia.
Qed.

(** X1. For a supported interval, a start date and an end date before the
    last day of the calendar, [dategrid] returns the start date followed by
    the days after it, up to the end date, that the interval selects, in
    calendar order: nothing else is in the list and no selected day is
    missing. *)
Theorem dategrid_is_filter (startdate enddate : date) (interval : string) :
  In interval supportedintervals ->
  MINORDINAL <= startdate < MAXORDINAL ->
  enddate < MAXORDINAL ->
  dategrid startdate enddate interval
  = Ok (startdate
        :: List.filter (on_grid interval (weekday startdate))
             (seqZ (startdate + 1) (enddate - startdate))).
Proof.
  intros Hin Hstart Hend.
  assert (Hret : exists dates, dategrid startdate enddate interval = Ok dates).
  { unfold dategrid. apply supported_existsb in Hin. rewrite Hin. simpl negb.
    cbv iota. rewrite add_days_in_range by (unfold MINORDINAL in *; lia).
    apply dategrid_loop_returns; [unfold MINORDINAL in *; lia | assumption]. }
  destruct Hret as [dates Hdates]. rewrite Hdates.
  now rewrite (dategrid_Ok_filter _ _ _ _ Hdates) at 1.
Qed.

Lemma dategrid_is_filter_witness :
  dategrid (ymd 2020 1 15) (ymd 2020 4 1) "monthly"
  = Ok (ymd 2020 1 15
        :: List.filter (on_grid "monthly" (weekday (ymd 2020 1 15)))
             (seqZ (ymd 2020 1 15 + 1) (ymd 2020 4 1 - ymd 2020 1 15))).
Proof.
  apply (dategrid_is_filter (ymd 2020 1 15) (ymd 2020 4 1) "monthly").
  - simpl. tauto.
  - vm_compute. split; [discriminate | reflexivity].
  - vm_compute. reflexivity.
Defined.

(** X2. A weekly grid holds the start date and the days up to the end date
    that are a whole number of weeks after it, and no other day. *)
Theorem dategrid_weekly_every_7_days (startdate enddate : date)
    (dates : list date) :
  dategrid startdate enddate "weekly" = Ok dates ->
  forall d,
    In d dates
    <-> d = startdate
        \/ (startdate < d <= enddate /\ (d - startdate) mod 7 = 0).
Proof.
  intros Hdates d. rewrite (dategrid_Ok_filter _ _ _ _ Hdates).
  simpl In. rewrite filter_In, <- list_elem_of_In, elem_of_seqZ.
  unfold on_grid. simpl String.eqb. cbv iota. unfold weekday.
  rewrite Z.eqb_eq.
  assert (Hweeks : (d + 6) mod 7 = (startdate + 6) mod 7
                   <-> (d - startdate) mod 7 = 0)
    by (split; intros; Z.div_mod_to_equations; lia).
  rewrite Hweeks. intuition lia.
Qed.

Lemma dategrid_weekly_every_7_days_witness :
  In (ymd 2020 1 8) [ymd 2020 1 1; ymd 2020 1 8; ymd 2020 1 15]
  <-> ymd 2020 1 8 = ymd 2020 1 1
      \/ (ymd 2020 1 1 < ymd 2020 1 8 <= ymd 2020 1 20
          /\ (ymd 2020 1 8 - ymd 2020 1 1) mod 7 = 0).
Proof.
  apply (dategrid_weekly_every_7_days (ymd 2020 1 1) (ymd 2020 1 20)
           [ymd 2020 1 1; ymd 2020 1 8; ymd 2020 1 15]).
  vm_compute. reflexivity.
Defined.

(** X3. When the end date is not after the start date, the grid of a
    supported interval is the start date alone. *)
Theorem dategrid_end_not_after_start (startdate enddate : date)
    (interval : string) :
  In interval supportedintervals ->
  MINORDINAL <= startdate < MAXORDINAL ->
  enddate <= startdate ->
  dategrid startdate enddate interval = Ok [startdate].
Proof.
  intros Hin Hstart Hend. unfold dategrid.
  apply supported_existsb in Hin. rewrite Hin. simpl negb. cbv iota.
  rewrite add_days_in_range by (unfold MINORDINAL in *; lia).
  destruct (dategrid_loop_returns interval (weekday startdate) enddate
              (startdate + 1) [startdate]) as [out Hout];
    [unfold MINORDINAL in *; lia | lia |].
  rewrite Hout. apply dategrid_loop_filter in Hout as ->.
  now rewrite seqZ_nil by lia.
Qed.

Lemma dategrid_end_not_after_start_witness :
  dategrid (ymd 2020 7 1) (ymd 2020 6 1) "weekly" = Ok [ymd 2020 7 1].
Proof.
  apply (dategrid_end_not_after_start (ymd 2020 7 1) (ymd 2020 6 1) "weekly").
  - simpl. tauto.
  - vm_compute. split; [discriminate | reflexivity].
  - vm_compute. discriminate.
Defined.

(** X4. With the end date on the last day of the calendar (9999-12-31) the
    grid of a supported interval is not returned: stepping past the last
    day raises OverflowError. *)
Theorem dategrid_until_last_day (startdate : date) (interval : string) :
  In interval supportedintervals ->
  MINORDINAL <= startdate <= MAXORDINAL ->
  dategrid startdate MAXORDINAL interval = Raise OverflowError.
Proof.
  intros Hin Hstart. unfold dategrid.
  apply supported_existsb in Hin. rewrite Hin. simpl negb. cbv iota.
  destruct (add_days startdate 1) as [d|e] eqn:Hadd.
  - apply add_days_Ok in Hadd as [-> Hrange].
    apply dategrid_loop_overflow; lia.
  - now apply add_days_Raise in Hadd as ->.
Qed.

Lemma dategrid_until_last_day_witness :
  dategrid (ymd 9999 12 1) MAXORDINAL "monthly" = Raise OverflowError.
Proof.
  apply (dategrid_until_last_day (ymd 9999 12 1) "monthly").
  - simpl. tauto.
  - vm_compute. split; discriminate.
Defined.

(** ** The final passes, entry by entry *)

Lemma filter_all {A} (f : A -> bool) (l : list A) :
  (forall a, In a l -> f a = true) -> List.filter f l = l.
Proof.
  induction l as [|a rest IH]; simpl; intros Hall; [reflexivity|].
  rewrite (Hall a) by auto. f_equal. apply IH. auto.
Qed.

Lemma filter_twice {A} (f g : A -> bool) (l : list A) :
  List.filter f (List.filter g l) = List.filter (fun a => g a && f a) l.
Proof.
  induction l as [|a rest IH]; simpl; [reflexivity|].
  destruct (g a); simpl; [destruct (f a)|]; now rewrite IH.
Qed.

(* Deleting the late dates of [snapshot] one after the other keeps the
   steps whose date is not one of them. *)
Lemma clip_fold_is_filter (snapshot : list datetime) (schedule : TimeVector.t)
    (enddate : date) :
  fold_left
    (fun schedule dt =>
       if enddate <? dt_date dt then TimeVector.delete schedule dt
       else schedule)
    snapshot schedule
  = List.filter
      (fun step =>
         negb (existsb
                 (fun dt => dt_eqb (fst step) dt && (enddate <? dt_date dt))
                 snapshot))
      schedule.
Proof.
  revert schedule. induction snapshot as [|dt rest IH]; intros schedule.
  - simpl. symmetry. now apply filter_all.
  - simpl fold_left. rewrite IH. destruct (enddate <? dt_date dt) eqn:Hlate.
    + unfold TimeVector.delete. rewrite filter_twice.
      apply filter_ext. intros step. simpl existsb. rewrite Hlate.
      rewrite andb_true_r, negb_orb. reflexivity.
    + apply filter_ext. intros step. simpl existsb. rewrite Hlate.
      now rewrite andb_false_r.
Qed.

(* The clip pass is a filter on the date of the entries. *)
Lemma clip_filter (schedule : TimeVector.t) (enddate : date) :
  clip schedule enddate
  = List.filter (fun step => dt_date (fst step) <=? enddate) schedule.
Proof.
  unfold clip. rewrite clip_fold_is_filter. apply filter_ext_in.
  intros step Hstep.
  destruct (dt_date (fst step) <=? enddate) eqn:Hle.
  - apply Z.leb_le in Hle. apply negb_true_iff.
    apply not_true_is_false. rewrite existsb_exists.
    intros (dt & _ & Hdt). apply andb_true_iff in Hdt as [Heq Hlate].
    apply dt_eqb_eq in Heq. apply Z.ltb_lt in Hlate. subst dt. lia.
  - apply Z.leb_gt in Hle. apply negb_false_iff. apply existsb_exists.
    exists (fst step). split.
    + unfold TimeVector.dates. now apply in_map.
    + rewrite dt_eqb_refl. now apply Z.ltb_lt.
Qed.

(** X5. The clip pass keeps exactly the entries dated on or before the end
    date, each with its content, in their order; clipping a second time at
    the same end date changes nothing. *)
Theorem clip_is_filter (schedule : TimeVector.t) (enddate : date) :
  clip schedule enddate
  = List.filter (fun step => dt_date (fst step) <=? enddate) schedule
  /\ clip (clip schedule enddate) enddate = clip schedule enddate.
Proof.
  split; [apply clip_filter|].
  rewrite !clip_filter, filter_twice. apply filter_ext.
  intros step. apply andb_diag.
Qed.

(** X6. A schedule with no entry after the end date and with an entry at
    the end date comes out of the final passes unchanged when the end date
    is configured and no date grid is asked for. *)
Theorem finish_keeps_satisfied (sunschconf : config) (schedule : TimeVector.t)
    (enddate : date) :
  c_enddate sunschconf = Some (YDate enddate) ->
  c_dategrid sunschconf = None ->
  (forall dt, In dt (TimeVector.dates schedule) -> dt_date dt <= enddate) ->
  In enddate (map dt_date (TimeVector.dates schedule)) ->
  finish sunschconf schedule = Ok schedule.
Proof.
  intros Hend Hgrid Hbefore Hthere.
  unfold finish, resolve_enddate, add_dategrid. rewrite Hend, Hgrid.
  assert (Hclip : clip schedule enddate = schedule).
  { rewrite clip_filter. apply filter_all. intros step Hstep.
    apply Z.leb_le, Hbefore. unfold TimeVector.dates. now apply in_map. }
  rewrite Hclip. unfold mention_enddate.
  apply mentioned_iff in Hthere. now rewrite Hthere.
Qed.

(** X7. Without a configured end date, the end date is the date of the last
    entry; when the dates of the schedule are in ascending order nothing is
    clipped and no marker is added for the end date: only the date grid, if
    any, is added. *)
Theorem finish_implicit_enddate (sunschconf : config)
    (steps : TimeVector.t) (dt : datetime) (ks : list string) :
  c_enddate sunschconf = None ->
  (forall x, In x (TimeVector.dates steps) -> dt_date x <= dt_date dt) ->
  resolve_enddate sunschconf (steps ++ [(dt, ks)])%list = Ok (dt_date dt)
  /\ finish sunschconf (steps ++ [(dt, ks)])%list
     = add_dategrid sunschconf (steps ++ [(dt, ks)])%list (dt_date dt).
Proof.
  intros Hend Hsorted.
  assert (Hresolve :
            resolve_enddate sunschconf (steps ++ [(dt, ks)])%list = Ok (dt_date dt)).
  { unfold resolve_enddate, TimeVector.dates. rewrite Hend.
    rewrite !map_app. simpl map. now rewrite last_last. }
  split; [exact Hresolve|].
  unfold finish. rewrite Hresolve.
  assert (Hclip : clip (steps ++ [(dt, ks)])%list (dt_date dt) = (steps ++ [(dt, ks)])%list).
  { rewrite clip_filter. apply filter_all. intros step Hstep.
    apply Z.leb_le. apply in_app_or in Hstep as [Hstep | [<- | []]].
    - apply Hsorted. unfold TimeVector.dates. now apply in_map.
    - simpl. lia. }
  rewrite Hclip. unfold mention_enddate.
  assert (Hthere : In (dt_date dt)
                     (map dt_date (TimeVector.dates (steps ++ [(dt, ks)])%list))).
  { unfold TimeVector.dates. rewrite !map_app. apply in_or_app. right.
    simpl. auto. }
  apply mentioned_iff in Hthere. now rewrite Hthere.
Qed.

(* An entry is still there after content has been added at some date, with
   that content appended to it when it is the entry of that date. *)
Lemma add_keywords_keeps_entry (tv : TimeVector.t) (dt' : datetime)
    (keywords : list string) (dt : datetime) (ks : list string) :
  In (dt, ks) tv ->
  In (dt, ks) (TimeVector.add_keywords tv dt' keywords)
  \/ In (dt, (ks ++ keywords)%list) (TimeVector.add_keywords tv dt' keywords).
Proof.
  induction tv as [|[d old] rest IH]; simpl; [tauto|].
  intros [Hhead | Hrest].
  - injection Hhead as -> ->.
    destruct (dt_eqb dt dt'); [right; simpl; auto|].
    destruct (dt_ltb dt' dt); left; simpl; auto.
  - destruct (dt_eqb d dt'); [left; simpl; auto|].
    destruct (dt_ltb dt' d); [left; simpl; auto|].
    destruct (IH Hrest); [left | right]; simpl; auto.
Qed.

(* An entry after content has been added is an entry from before, possibly
   with the content appended, or the new entry. *)
Lemma add_keywords_entry_from (tv : TimeVector.t) (dt' : datetime)
    (keywords : list string) (dt : datetime) (ks : list string) :
  In (dt, ks) (TimeVector.add_keywords tv dt' keywords) ->
  In (dt, ks) tv
  \/ (exists old, In (dt, old) tv /\ ks = (old ++ keywords)%list)
  \/ ks = keywords.
Proof.
  induction tv as [|[d old] rest IH]; simpl.
  - intros [[= <- <-] | []]. auto.
  - destruct (dt_eqb d dt').
    + intros [[= <- <-] | Hrest]; [right; left; eauto | auto].
    + destruct (dt_ltb dt' d).
      * intros [[= <- <-] | [Hhead | Hrest]]; auto.
      * intros [Hhead | Hrest]; [auto|].
        destruct (IH Hrest) as [Hin | [(old' & Hin & ->) | ->]]; eauto 6.
Qed.

Lemma markers_keep_entry (ds : list date) (schedule : TimeVector.t)
    (dt : datetime) (ks : list string) :
  In (dt, ks) schedule ->
  exists markers,
    blank markers
    /\ In (dt, (ks ++ markers)%list)
         (fold_left
            (fun schedule d =>
               TimeVector.add_keywords schedule (datetime_from_date d)
                 [EmptyString])
            ds schedule).
Proof.
  revert schedule ks. induction ds as [|d rest IH]; intros schedule ks Hin.
  - exists []. rewrite app_nil_r. split; [constructor | exact Hin].
  - simpl.
    destruct (add_keywords_keeps_entry schedule (datetime_from_date d)
                [EmptyString] dt ks Hin) as [Hsame | Hmore].
    + now apply IH.
    + destruct (IH _ _ Hmore) as (markers & Hblank & Hthere).
      exists (EmptyString :: markers). split; [now constructor|].
      now rewrite <- app_assoc in Hthere.
Qed.

Lemma markers_entry_from (ds : list date) (schedule : TimeVector.t)
    (dt : datetime) (ks : list string) :
  In (dt, ks)
    (fold_left
       (fun schedule d =>
          TimeVector.add_keywords schedule (datetime_from_date d)
            [EmptyString])
       ds schedule) ->
  exists old markers,
    blank markers /\ ks = (old ++ markers)%list
    /\ (In (dt, old) schedule \/ old = []).
Proof.
  revert schedule ks. induction ds as [|d rest IH]; intros schedule ks.
  - simpl. intros Hin. exists ks, []. rewrite app_nil_r.
    repeat split; [constructor | auto].
  - simpl. intros Hin.
    destruct (IH _ _ Hin) as (old & markers & Hblank & -> & [Hold | ->]).
    + apply add_keywords_entry_from in Hold
        as [Hsame | [(older & Holder & ->) | ->]].
      * exists old, markers. auto.
      * exists older, (EmptyString :: markers). rewrite <- app_assoc.
        repeat split; [now constructor | auto].
      * exists [], (EmptyString :: markers).
        repeat split; [now constructor | auto].
    + exists [], markers. auto.
Qed.

(* The final passes clip the schedule and then only add markers. *)
Lemma finish_is_markers (sunschconf : config) (schedule : TimeVector.t)
    (enddate : date) (tv : TimeVector.t) :
  resolve_enddate sunschconf schedule = Ok enddate ->
  finish sunschconf schedule = Ok tv ->
  exists ds,
    tv = fold_left
           (fun schedule d =>
              TimeVector.add_keywords schedule (datetime_from_date d)
                [EmptyString])
           ds (clip schedule enddate).
Proof.
  intros Hend. unfold finish. rewrite Hend.
  unfold add_dategrid, mention_enddate.
  destruct (existsb _ _).
  - destruct (c_dategrid sunschconf) as [interval|].
    + destruct (c_startdate sunschconf) as [startdate|]; [|discriminate].
      destruct (dategrid startdate enddate interval) as [ds|]; [|discriminate].
      intros [= <-]. now exists ds.
    + intros [= <-]. now exists [].
  - destruct (c_dategrid sunschconf) as [interval|].
    + destruct (c_startdate sunschconf) as [startdate|]; [|discriminate].
      destruct (dategrid startdate enddate interval) as [ds|]; [|discriminate].
      intros [= <-]. now exists (enddate :: ds).
    + intros [= <-]. now exists [enddate].
Qed.

(** X8. The final passes lose no content dated on or before the end date:
    every such entry of the loaded schedule is in the result with its
    content, in order, followed at most by empty markers. *)
Theorem finish_keeps_content (sunschconf : config) (schedule : TimeVector.t)
    (enddate : date) (tv : TimeVector.t) (dt : datetime) (ks : list string) :
  resolve_enddate sunschconf schedule = Ok enddate ->
  finish sunschconf schedule = Ok tv ->
  In (dt, ks) schedule ->
  dt_date dt <= enddate ->
  exists markers, blank markers /\ In (dt, (ks ++ markers)%list) tv.
Proof.
  intros Hend Hfinish Hin Hle.
  destruct (finish_is_markers _ _ _ _ Hend Hfinish) as [ds ->].
  apply markers_keep_entry. rewrite clip_filter. apply filter_In.
  split; [exact Hin|]. now apply Z.leb_le.
Qed.

(** X9. The final passes add nothing but empty markers: the content of an
    entry of the result is the content of an entry of the loaded schedule
    at the same date, not after the end date, followed by empty markers, or
    it is empty markers only. *)
Theorem finish_adds_markers_only (sunschconf : config)
    (schedule : TimeVector.t) (enddate : date) (tv : TimeVector.t)
    (dt : datetime) (ks : list string) :
  resolve_enddate sunschconf schedule = Ok enddate ->
  finish sunschconf schedule = Ok tv ->
  In (dt, ks) tv ->
  exists old markers,
    blank markers
    /\ ks = (old ++ markers)%list
    /\ ((In (dt, old) schedule /\ dt_date dt <= enddate) \/ old = []).
Proof.
  intros Hend Hfinish Hin.
  destruct (finish_is_markers _ _ _ _ Hend Hfinish) as [ds ->].
  apply markers_entry_from in Hin
    as (old & markers & Hblank & -> & [Hold | ->]).
  - exists old, markers. repeat split; trivial. left.
    rewrite clip_filter in Hold. apply filter_In in Hold as [Hold Hle].
    split; [exact Hold|]. now apply Z.leb_le in Hle.
  - exists [], markers. auto.
Qed.

Lemma dategrid_loop_Raise (interval : string) (startdateweekday : Z)
    (enddate d : date) (dates : list date) (e : exn) :
  dategrid_loop interval startdateweekday enddate d dates = Raise e ->
  e = OverflowError.
Proof.
  funelim (dategrid_loop interval startdateweekday enddate d dates);
    intros Hraise.
  - discriminate.
  - auto.
  - match goal with
    | Hadd : add_days _ 1 = Raise ?e |- _ =>
        assert (e = OverflowError) by (eapply add_days_Raise; exact Hadd)
    end.
    congruence.
Qed.

Lemma dategrid_Raise (startdate enddate : date) (interval : string) (e : exn) :
  dategrid startdate enddate interval = Raise e ->
  e = unsupported_interval interval \/ e = OverflowError.
Proof.
  unfold dategrid. destruct (negb _); [intros [= <-]; auto|].
  destruct (add_days startdate 1) as [d|e'] eqn:Hadd.
  - intros Hloop. right. now apply dategrid_loop_Raise in Hloop.
  - intros [= <-]. right. now apply add_days_Raise in Hadd.
Qed.

(** ** The end date and the date grid of the configuration *)

Section AssemblerFailures.

Variable parse : list string -> string + TimeVector.fragment.
Variable TimeVector_new : date -> TimeVector.t.

Lemma process_sch_config_finish (sunschconf : config) fs fs' schedule :
  load_all parse TimeVector_new sunschconf fs = (fs', Ok schedule) ->
  process_sch_config parse TimeVector_new sunschconf fs
  = (fs', finish (default_refdate sunschconf) schedule).
Proof.
  intros Hload. unfold process_sch_config, bind. now rewrite Hload.
Qed.

(** X10. An end date that is not a calendar date (a text, a number, a date
    with a time) is refused with the exception "ERROR: end-date not in
    ISO-8601 format, must be YYYY-MM-DD", once everything has been loaded,
    merged and inserted. *)
Theorem enddate_must_be_a_date (sunschconf : config) fs fs' schedule
    (enddate : yaml) :
  load_all parse TimeVector_new sunschconf fs = (fs', Ok schedule) ->
  c_enddate sunschconf = Some enddate ->
  (forall d, enddate <> YDate d) ->
  process_sch_config parse TimeVector_new sunschconf fs
  = (fs', Raise (Exception bad_enddate)).
Proof.
  intros Hload Hend Hnodate.
  rewrite (process_sch_config_finish _ _ _ _ Hload).
  unfold finish. rewrite resolve_enddate_default_refdate.
  unfold resolve_enddate. rewrite Hend.
  destruct enddate as [s|n|d|dt]; try reflexivity.
  now destruct (Hnodate d).
Qed.


(** ** The exceptions that leave the call *)

Lemma for_each_Raise {A S} (body : A -> S -> M S) (xs : list A) (acc : S)
    fs fs' e :
  for_each body xs acc fs = (fs', Raise e) ->
  exists x acc1 fs1, In x xs /\ body x acc1 fs1 = (fs', Raise e).
Proof.
  revert acc fs. induction xs as [|x rest IH]; intros acc fs; simpl.
  - discriminate.
  - intros Hrun.
    apply bind_Raise in Hrun as [Hbody | (acc1 & fs1 & _ & Hrest)].
    + eauto 6.
    + destruct (IH _ _ Hrest) as (y & acc2 & fs2 & Hy & Hbody). eauto 7.
Qed.

Lemma merge_file_Raise file schedule fs fs' e :
  merge_file parse file schedule fs = (fs', Raise e) -> failure e.
Proof.
  unfold merge_file.
  destruct (schedule_load parse schedule file None fs) as [fs1 [tv|e1]] eqn:Hload;
    [discriminate|].
  apply schedule_load_Raise in Hload as [-> | [msg ->]].
  - intros [= _ <-]. constructor.
  - intros [= _ <-]. constructor.
Qed.

Lemma resolve_date_Raise sunschconf file date e :
  c_refdate sunschconf <> None ->
  resolve_date sunschconf file date = Raise e -> e = OverflowError.
Proof.
  intros Href. unfold resolve_date.
  destruct (i_days file) as [days|]; [|discriminate].
  destruct (c_refdate sunschconf) as [refdate|]; [|contradiction].
  destruct (add_days refdate days) as [d|e'] eqn:Hadd; [discriminate|].
  intros [= <-]. now apply add_days_Raise in Hadd.
Qed.

Lemma process_insert_Raise sunschconf file vars fs fs' e :
  c_refdate sunschconf <> None ->
  process_insert parse sunschconf file vars fs = (fs', Raise e) -> failure e.
Proof.
  intros Href. rewrite process_insert_unfold. unfold after_tempfile.
  intros Hrun.
  apply bind_Raise in Hrun as [Hsubst | (filename & fs2 & _ & Hrun)].
  { unfold substitute in Hsubst.
    destruct (i_substitute file); [|discriminate].
    apply bind_Raise in Hsubst as [Hvar | (name & fs3 & _ & Hsubst)].
    { apply read_var_Raise in Hvar as ->. constructor. }
    apply bind_Raise in Hsubst as [Hread | (ls & fs4 & _ & Hsubst)].
    { unfold readlines in Hread. destruct (fs3 !! name); [discriminate|].
      injection Hread as _ <-. constructor. }
    apply bind_Raise in Hsubst as [Hwrite | (u & fs5 & _ & Hsubst)];
      discriminate. }
  apply bind_Raise in Hrun as [Hdate | (date & fs3 & _ & Hrun)].
  { unfold lift in Hdate. injection Hdate as _ Hdate.
    apply resolve_date_Raise in Hdate as ->; [constructor | exact Href]. }
  apply bind_Raise in Hrun as [Hplace | (s & fs4 & _ & Hrun)];
    [|discriminate].
  unfold place in Hplace. destruct (i_string file).
  - apply bind_Raise in Hplace as [Hvar | (d & fs5 & _ & Hplace)];
      [|discriminate].
    apply read_var_Raise in Hvar as ->. constructor.
  - apply bind_Raise in Hplace as [Hvar | (name & fs5 & _ & Hplace)].
    { apply read_var_Raise in Hvar as ->. constructor. }
    apply bind_Raise in Hplace as [Hvar | (d & fs6 & _ & Hplace)].
    { apply read_var_Raise in Hvar as ->. constructor. }
    apply schedule_load_Raise in Hplace as [-> | [msg ->]]; constructor.
Qed.

Lemma finish_Raise sunschconf schedule e :
  finish sunschconf schedule = Raise e -> failure e.
Proof.
  unfold finish.
  destruct (resolve_enddate sunschconf schedule) as [enddate|e'] eqn:Hend.
  - unfold add_dategrid.
    destruct (c_dategrid sunschconf) as [interval|]; [|discriminate].
    destruct (c_startdate sunschconf) as [startdate|];
      [|intros [= <-]; constructor].
    destruct (dategrid startdate enddate interval) as [ds|e'] eqn:Hgrid;
      [discriminate|].
    intros [= <-]. apply dategrid_Raise in Hgrid as [-> | ->]; constructor.
  - intros [= <-]. revert Hend. unfold resolve_enddate.
    destruct (c_enddate sunschconf) as [[s|n|d|dt]|];
      try (intros [= <-]; constructor).
    destruct (List.last _ _); [discriminate|]. intros [= <-]. constructor.
Qed.

Lemma new_schedule_Ok sunschconf fs fs' schedule :
  new_schedule TimeVector_new sunschconf fs = (fs', Ok schedule) ->
  c_refdate (default_refdate sunschconf) <> None.
Proof.
  unfold new_schedule, default_refdate.
  destruct (c_refdate sunschconf) eqn:Href; [simpl; congruence|].
  destruct (c_startdate sunschconf) eqn:Hstart; [discriminate | discriminate].
Qed.

(* Every exception that leaves the call is one of [failure]. *)
Lemma process_sch_config_Raise (sunschconf : config) fs fs' e :
  process_sch_config parse TimeVector_new sunschconf fs = (fs', Raise e) ->
  failure e.
Proof.
  unfold process_sch_config. intros Hrun.
  apply bind_Raise in Hrun as [Hload | (schedule & fs1 & _ & Hfinish)].
  2: { unfold lift in Hfinish. injection Hfinish as _ Hfinish.
       now apply finish_Raise in Hfinish. }
  unfold load_all in Hload.
  apply bind_Raise in Hload as [Hmerge | (schedule & fs1 & Hmerge & Hinsert)].
  - unfold load_and_merge in Hmerge.
    apply bind_Raise in Hmerge as [Hnew | (s0 & fs2 & _ & Hmerge)].
    { unfold new_schedule in Hnew.
      destruct (c_startdate sunschconf); [discriminate|].
      destruct (c_refdate sunschconf); [discriminate|].
      injection Hnew as _ <-. constructor. }
    apply bind_Raise in Hmerge as [Hinit | (s1 & fs3 & _ & Hmerge)].
    { unfold load_init in Hinit. destruct (c_init _); [|discriminate].
      apply bind_Raise in Hinit as [Hkey | (startdate & fs4 & _ & Hinit)].
      - unfold getitem in Hkey. destruct (c_startdate _); [discriminate|].
        injection Hkey as _ <-. constructor.
      - apply schedule_load_Raise in Hinit as [-> | [msg ->]]; constructor. }
    unfold merge_files in Hmerge. destruct (c_merge _); [|discriminate].
    apply for_each_Raise in Hmerge as (file & s2 & fs4 & _ & Hfile).
    now apply merge_file_Raise in Hfile.
  - assert (Href : c_refdate (default_refdate sunschconf) <> None).
    { unfold load_and_merge in Hmerge.
      apply bind_Ok in Hmerge as (s0 & fs2 & Hnew & _).
      now apply new_schedule_Ok in Hnew. }
    unfold insert_files in Hinsert. destruct (c_insert _); [|discriminate].
    apply bind_Raise in Hinsert as [Hloop | (vars & fs2 & _ & Hret)];
      [|discriminate].
    apply for_each_Raise in Hloop as (file & vars & fs2 & _ & Hfile).
    now apply process_insert_Raise in Hfile.
Qed.

(** X13. The check "When using days in insert statements, you must provide
    refdate" never fires: by the time insertions are processed a refdate is
    always there (given, or taken from startdate), so that exception never
    leaves the call. *)
Theorem days_without_refdate_never_raised (sunschconf : config) fs fs' e :
  process_sch_config parse TimeVector_new sunschconf fs = (fs', Raise e) ->
  e <> Exception days_without_refdate.
Proof.
  intros Hrun. apply process_sch_config_Raise in Hrun.
  destruct Hrun; discriminate.
Qed.

End AssemblerFailures.

(** ** Reading and writing files *)

Lemma reads_only_bind {A B} (c : M A) (k : A -> M B) :
  reads_only c -> (forall a, reads_only (k a)) -> reads_only (bind c k).
Proof.
  intros Hc Hk fs. unfold bind. specialize (Hc fs).
  destruct (c fs) as [fs1 [a|e]]; simpl in *; [|exact Hc].
  now rewrite (Hk a fs1).
Qed.

Lemma reads_only_for_each {A S} (body : A -> S -> M S) (xs : list A) (acc : S) :
  (forall x s, reads_only (body x s)) -> reads_only (for_each body xs acc).
Proof.
  intros Hbody. revert acc. induction xs as [|x rest IH]; intros acc; simpl.
  - intros fs. reflexivity.
  - apply reads_only_bind; auto.
Qed.

Lemma adds_files_only_bind {A B} (c : M A) (k : A -> M B) :
  adds_files_only c -> (forall a, adds_files_only (k a)) ->
  adds_files_only (bind c k).
Proof.
  intros Hc Hk fs. unfold bind. specialize (Hc fs).
  destruct (c fs) as [fs1 [a|e]]; simpl in *; [|exact Hc].
  etrans; [exact Hc | apply Hk].
Qed.

Lemma adds_files_only_for_each {A S} (body : A -> S -> M S) (xs : list A)
    (acc : S) :
  (forall x s, adds_files_only (body x s)) ->
  adds_files_only (for_each body xs acc).
Proof.
  intros Hbody. revert acc. induction xs as [|x rest IH]; intros acc; simpl.
  - intros fs. reflexivity.
  - apply adds_files_only_bind; auto.
Qed.

Lemma reads_only_adds_files_only {A} (c : M A) :
  reads_only c -> adds_files_only c.
Proof. intros Hc fs. now rewrite Hc. Qed.

Section AssemblerFiles.

Variable parse : list string -> string + TimeVector.fragment.
Variable TimeVector_new : date -> TimeVector.t.

Lemma reads_only_read_var {A} name (v : option A) : reads_only (read_var name v).
Proof. destruct v; intros fs; reflexivity. Qed.

Lemma reads_only_schedule_load schedule source date :
  reads_only (schedule_load parse schedule source date).
Proof. intros fs. reflexivity. Qed.

Lemma reads_only_merge_file file schedule :
  reads_only (merge_file parse file schedule).
Proof.
  intros fs. unfold merge_file, schedule_load.
  destruct (TimeVector.load parse fs schedule file None) as [tv|[]];
    reflexivity.
Qed.

Lemma reads_only_place file schedule filename date :
  reads_only (place parse file schedule filename date).
Proof.
  unfold place. destruct (i_string file).
  - apply reads_only_bind; [apply reads_only_read_var|].
    intros dt fs. reflexivity.
  - apply reads_only_bind; [apply reads_only_read_var|]. intros name.
    apply reads_only_bind; [apply reads_only_read_var|]. intros dt.
    apply reads_only_schedule_load.
Qed.

Lemma reads_only_load_and_merge sunschconf :
  reads_only (load_and_merge parse TimeVector_new sunschconf).
Proof.
  unfold load_and_merge. apply reads_only_bind.
  - unfold new_schedule. intros fs.
    destruct (c_startdate sunschconf); [reflexivity|].
    destruct (c_refdate sunschconf); reflexivity.
  - intros schedule. apply reads_only_bind.
    + unfold load_init. destruct (c_init _); [|intros fs; reflexivity].
      apply reads_only_bind.
      * unfold getitem. destruct (c_startdate _); intros fs; reflexivity.
      * intros startdate. apply reads_only_schedule_load.
    + intros schedule'. unfold merge_files.
      destruct (c_merge _); [|intros fs; reflexivity].
      apply reads_only_for_each. intros; apply reads_only_merge_file.
Qed.

(** X14. Without insertions the call writes nothing: loading the init
    file, merging files and the final passes leave every file as it is and
    create none, whether the call returns or raises. *)
Theorem no_insert_no_write (sunschconf : config) fs :
  c_insert sunschconf = None ->
  fst (process_sch_config parse TimeVector_new sunschconf fs) = fs.
Proof.
  intros Hinsert. revert fs.
  change (reads_only (process_sch_config parse TimeVector_new sunschconf)).
  unfold process_sch_config, load_all.
  apply reads_only_bind; [|intros schedule fs; reflexivity].
  apply reads_only_bind; [apply reads_only_load_and_merge|].
  intros schedule. unfold insert_files.
  rewrite insert_default_refdate, Hinsert. intros fs. reflexivity.
Qed.

(* The only file a loop iteration touches is its own temporary file. *)
Lemma process_insert_files sunschconf file vars fs :
  exists content,
    fst (process_insert parse sunschconf file vars fs)
    = <[fresh_string "/tmp/tmp" fs := content]> fs.
Proof.
  rewrite process_insert_unfold. unfold after_tempfile.
  set (tmp := fresh_string "/tmp/tmp" fs). set (fs1 := <[tmp := []]> fs).
  assert (Hrest : forall filename,
             reads_only
               (let* date := lift (resolve_date sunschconf file (v_date vars)) in
                let* schedule := place parse file (v_schedule vars) filename date in
                ret {| v_schedule := schedule; v_filename := filename;
                       v_date := date |})).
  { intros filename. apply reads_only_bind; [intros fs'; reflexivity|].
    intros date. apply reads_only_bind; [apply reads_only_place|].
    intros schedule fs'. reflexivity. }
  unfold bind at 1. unfold substitute.
  destruct (i_substitute file) as [substdict|].
  - unfold bind at 1.
    destruct (read_var "filename" _ fs1) as [fs2 [name|e]] eqn:Hvar.
    + assert (fs2 = fs1) as ->
        by (pose proof (reads_only_read_var "filename"
                          (choose_filename file (v_filename vars)) fs1) as H;
            now rewrite Hvar in H).
      unfold bind at 1. unfold readlines.
      destruct (fs1 !! name) as [lines|].
      * unfold bind at 1. unfold write_lines, ret.
        rewrite Hrest. exists (map (substitute_line substdict) lines).
        unfold fs1. apply insert_insert_eq.
      * now exists [].
    + assert (fs2 = fs1) as ->
        by (pose proof (reads_only_read_var "filename"
                          (choose_filename file (v_filename vars)) fs1) as H;
            now rewrite Hvar in H).
      now exists [].
  - unfold ret. rewrite Hrest. now exists [].
Qed.

Lemma adds_files_only_process_insert sunschconf file vars :
  adds_files_only (process_insert parse sunschconf file vars).
Proof.
  intros fs. destruct (process_insert_files sunschconf file vars fs)
    as [content ->].
  apply insert_subseteq, fresh_string_fresh.
Qed.

(** X15. The call never changes a file that was there before it: every
    file of the file system it starts from is still there with the same
    lines when it ends, whether it returns or raises. In particular the
    template of a substitution is not written to. *)
Theorem existing_files_unchanged (sunschconf : config) fs :
  fs ⊆ fst (process_sch_config parse TimeVector_new sunschconf fs).
Proof.
  revert fs.
  change (adds_files_only (process_sch_config parse TimeVector_new sunschconf)).
  unfold process_sch_config, load_all.
  apply adds_files_only_bind; [|intros schedule fs; reflexivity].
  apply adds_files_only_bind.
  - apply reads_only_adds_files_only, reads_only_load_and_merge.
  - intros schedule. unfold insert_files.
    destruct (c_insert _); [|intros fs; reflexivity].
    apply adds_files_only_bind; [|intros vars fs; reflexivity].
    apply adds_files_only_for_each.
    intros; apply adds_files_only_process_insert.
Qed.

Lemma for_each_insert_size sunschconf files vars fs fs' vars' :
  for_each (process_insert parse sunschconf) files vars fs = (fs', Ok vars') ->
  size fs' = (size fs + length files)%nat.
Proof.
  revert vars fs. induction files as [|file rest IH]; intros vars fs; simpl.
  - intros [= <- _]. lia.
  - intros Hrun. apply bind_Ok in Hrun as (vars1 & fs1 & Hstep & Hrest).
    apply IH in Hrest. rewrite Hrest.
    destruct (process_insert_files sunschconf file vars fs) as [content Hfs].
    rewrite Hstep in Hfs. simpl in Hfs. subst fs1.
    rewrite map_size_insert_None by apply fresh_string_fresh. lia.
Qed.

(** X16. A call that returns has created exactly one file per insertion of
    the configuration, and no other file. *)
Theorem one_file_per_insertion (sunschconf : config) fs fs' tv :
  process_sch_config parse TimeVector_new sunschconf fs = (fs', Ok tv) ->
  size fs'
  = (size fs + length (default [] (c_insert sunschconf)))%nat.
Proof.
  unfold process_sch_config. intros Hrun.
  apply bind_Ok in Hrun as (schedule & fs1 & Hload & Hfinish).
  unfold lift in Hfinish. injection Hfinish as -> _.
  unfold load_all in Hload.
  apply bind_Ok in Hload as (s0 & fs0 & Hmerge & Hinsert).
  pose proof (reads_only_load_and_merge sunschconf fs) as Hsame.
  rewrite Hmerge in Hsame. simpl in Hsame. subst fs0.
  unfold insert_files in Hinsert. rewrite insert_default_refdate in Hinsert.
  destruct (c_insert sunschconf) as [files|]; simpl.
  - apply bind_Ok in Hinsert as (vars & fs2 & Hloop & Hret).
    injection Hret as <- _. now apply for_each_insert_size in Hloop.
  - injection Hinsert as <- _. lia.
Qed.

(** X17. An insertion from a file with a substitution writes the
    substituted lines of its template, line by line, to its temporary file,
    leaves the template as it is, and, when it succeeds, has loaded the
    schedule from the temporary file. *)
Theorem substituted_copy_is_loaded (sunschconf : config) (file : insertion)
    (vars : locals) fs fs' (vars' : locals)
    (substdict : list (string * yaml)) (name : string) (lines : list string) :
  i_string file = None ->
  i_substitute file = Some substdict ->
  choose_filename file (v_filename vars) = Some name ->
  fs !! name = Some lines ->
  process_insert parse sunschconf file vars fs = (fs', Ok vars') ->
  fs' = <[fresh_string "/tmp/tmp" fs
          := map (substitute_line substdict) lines]> fs
  /\ fs' !! name = Some lines
  /\ v_filename vars' = Some (fresh_string "/tmp/tmp" fs)
  /\ exists dt,
       TimeVector.load parse fs' (v_schedule vars)
         (fresh_string "/tmp/tmp" fs) (Some dt)
       = Ok (v_schedule vars').
Proof.
  intros Hstring Hsubst Hname Hlines. rewrite process_insert_unfold.
  unfold after_tempfile. set (tmp := fresh_string "/tmp/tmp" fs).
  assert (Hne : tmp <> name).
  { intros Heq. pose proof (fresh_string_fresh fs "/tmp/tmp") as Hfresh.
    fold tmp in Hfresh. rewrite Heq in Hfresh. congruence. }
  unfold substitute. rewrite Hsubst, Hname. unfold bind at 1 2 3.
  simpl read_var. unfold ret at 1, readlines.
  rewrite lookup_insert_ne by exact Hne. rewrite Hlines.
  unfold bind at 1. unfold write_lines, ret at 1. rewrite insert_insert_eq.
  set (fs2 := <[tmp := map (substitute_line substdict) lines]> fs).
  intros Hrun.
  apply bind_Ok in Hrun as (date & fs3 & Hdate & Hrun).
  unfold lift in Hdate. injection Hdate as <- Hdate.
  apply bind_Ok in Hrun as (schedule & fs4 & Hplace & Hret).
  unfold ret in Hret. injection Hret as <- <-.
  unfold place in Hplace. rewrite Hstring in Hplace.
  apply bind_Ok in Hplace as (name' & fs5 & Hvar & Hplace).
  simpl in Hvar. injection Hvar as <- <-.
  apply bind_Ok in Hplace as (dt & fs6 & Hvar & Hplace).
  destruct date as [dt'|]; [|discriminate]. simpl in Hvar.
  injection Hvar as <- <-.
  unfold schedule_load in Hplace. injection Hplace as <- Hload.
  repeat split; simpl.
  - unfold fs2. rewrite lookup_insert_ne by exact Hne. exact Hlines.
  - eauto.
Qed.

End AssemblerFiles.

(** ** Merged files and relative dates *)

Section AssemblerMerge.

Variable parse : list string -> string + TimeVector.fragment.
Variable TimeVector_new : date -> TimeVector.t.

(** X18. The merge pass stops at the first file whose load raises and loads
    none of the files after it: a ValueError of the load is raised again as
    the exception "Error in <file>: <message>", any other exception of the
    load leaves the call as it is. *)
Theorem merge_stops_at_bad_file (sunschconf : config)
    (schedule : TimeVector.t) fs (before : list string) (file : string)
    (after : list string) fs1 (merged : TimeVector.t) fs2 (e : exn) :
  c_merge sunschconf = Some (before ++ file :: after)%list ->
  for_each (merge_file parse) before schedule fs = (fs1, Ok merged) ->
  schedule_load parse merged file None fs1 = (fs2, Raise e) ->
  merge_files parse sunschconf schedule fs
  = (fs2, Raise match e with
                | ValueError exception =>
                    Exception ("Error in " +:+ file +:+ ": " +:+ exception)
                | _ => e
                end).
Proof.
  intros Hmerge Hbefore Hload. unfold merge_files. rewrite Hmerge.
  rewrite for_each_app. unfold bind at 1. rewrite Hbefore.
  simpl for_each. unfold bind at 1. unfold merge_file. rewrite Hload.
  destruct e; reflexivity.
Qed.

End AssemblerMerge.

(** X19. Without a refdate, the days of an insertion count from startdate:
    the insertion is dated startdate + days. *)
Theorem days_count_from_startdate (sunschconf : config) (file : insertion)
    (startdate : date) (days : Z) (date : option datetime) :
  c_refdate sunschconf = None ->
  c_startdate sunschconf = Some startdate ->
  i_days file = Some days ->
  MINORDINAL <= startdate + days <= MAXORDINAL ->
  resolve_date (default_refdate sunschconf) file date
  = Ok (Some (midnight (startdate + days))).
Proof.
  intros Href Hstart Hdays Hrange. unfold resolve_date, default_refdate.
  rewrite Href, Hstart, Hdays. cbv beta iota. cbn [c_refdate].
  now rewrite add_days_in_range by exact Hrange.
Qed.

(** X20. Days that lead out of the calendar (before 0001-01-01 or after
    9999-12-31) make the date of the insertion raise OverflowError, whether
    or not the insertion also has a date entry. *)
Theorem days_out_of_calendar (sunschconf : config) (file : insertion)
    (refdate : date) (days : Z) (date : option datetime) :
  c_refdate sunschconf = Some refdate ->
  i_days file = Some days ->
  ~ (MINORDINAL <= refdate + days <= MAXORDINAL) ->
  resolve_date sunschconf file date = Raise OverflowError.
Proof.
  intros Href Hdays Hrange. unfold resolve_date. rewrite Hdays, Href.
  destruct (add_days refdate days) as [d|e] eqn:Hadd.
  - apply add_days_Ok in Hadd as [_ Hin]. contradiction.
  - now apply add_days_Raise in Hadd as ->.
Qed.

(** ** The further properties at sample inputs *)

Lemma finish_keeps_satisfied_witness :
  finish until_june
    [(midnight (ymd 2020 2 1), ["WELSPECS"]);
     (midnight (ymd 2020 6 1), ["WCONHIST"])]
  = Ok [(midnight (ymd 2020 2 1), ["WELSPECS"]);
        (midnight (ymd 2020 6 1), ["WCONHIST"])].
Proof.
  apply (finish_keeps_satisfied until_june
           [(midnight (ymd 2020 2 1), ["WELSPECS"]);
            (midnight (ymd 2020 6 1), ["WCONHIST"])]
           (ymd 2020 6 1)).
  - reflexivity.
  - reflexivity.
  - intros dt [<- | [<- | []]]; vm_compute; discriminate.
  - vm_compute. auto.
Defined.

Lemma finish_implicit_enddate_witness :
  resolve_enddate (with_inserts [])
    ([(midnight (ymd 2020 1 11), ["WCONHIST"])]
     ++ [(midnight (ymd 2020 3 1), ["WELSPECS"])])%list
  = Ok (dt_date (midnight (ymd 2020 3 1)))
  /\ finish (with_inserts [])
       ([(midnight (ymd 2020 1 11), ["WCONHIST"])]
        ++ [(midnight (ymd 2020 3 1), ["WELSPECS"])])%list
     = add_dategrid (with_inserts [])
         ([(midnight (ymd 2020 1 11), ["WCONHIST"])]
          ++ [(midnight (ymd 2020 3 1), ["WELSPECS"])])%list
         (dt_date (midnight (ymd 2020 3 1))).
Proof.
  apply (finish_implicit_enddate (with_inserts [])
           [(midnight (ymd 2020 1 11), ["WCONHIST"])]
           (midnight (ymd 2020 3 1)) ["WELSPECS"]).
  - reflexivity.
  - intros x [<- | []]. vm_compute. discriminate.
Defined.

Lemma finish_keeps_content_witness :
  exists markers,
    blank markers
    /\ In (midnight (ymd 2020 2 1), (["WELSPECS"] ++ markers)%list)
         february_finished.
Proof.
  apply (finish_keeps_content monthly_2020 february_content (ymd 2020 6 1)
           february_finished (midnight (ymd 2020 2 1)) ["WELSPECS"]).
  - reflexivity.
  - vm_compute. reflexivity.
  - simpl. auto.
  - vm_compute. discriminate.
Defined.

Lemma finish_adds_markers_only_witness :
  exists old markers,
    blank markers
    /\ ["WELSPECS"; EmptyString] = (old ++ markers)%list
    /\ ((In (midnight (ymd 2020 2 1), old) february_content
         /\ dt_date (midnight (ymd 2020 2 1)) <= ymd 2020 6 1)
        \/ old = []).
Proof.
  apply (finish_adds_markers_only monthly_2020 february_content
           (ymd 2020 6 1) february_finished (midnight (ymd 2020 2 1))
           ["WELSPECS"; EmptyString]).
  - reflexivity.
  - vm_compute. reflexivity.
  - simpl. auto.
Defined.

Lemma enddate_must_be_a_date_witness :
  process_sch_config parse_plain empty_document text_enddate foo_sch
  = (foo_sch, Raise (Exception bad_enddate)).
Proof.
  apply (enddate_must_be_a_date parse_plain empty_document text_enddate
           foo_sch foo_sch [] (YStr "2020-06-01")).
  - reflexivity.
  - reflexivity.
  - discriminate.
Defined.


Lemma days_without_refdate_never_raised_witness :
  NameError "date" <> Exception days_without_refdate.
Proof.
  apply (days_without_refdate_never_raised parse_plain empty_document
           (with_inserts [undated_string]) ∅
           (<["/tmp/tmp" := []]> ∅) (NameError "date")).
  vm_compute. reflexivity.
Defined.

Lemma merge_stops_at_bad_file_witness :
  merge_files parse_plain merge_two [] foo_sch
  = (foo_sch, Raise (Exception ("Error in " +:+ "foo.sch" +:+ ": "
                                +:+ TimeVector.no_date_msg))).
Proof.
  apply (merge_stops_at_bad_file parse_plain merge_two [] foo_sch
           [] "foo.sch" ["bar.sch"] foo_sch [] foo_sch
           (ValueError TimeVector.no_date_msg));
    reflexivity.
Defined.

Lemma days_count_from_startdate_witness :
  resolve_date (default_refdate (with_inserts [ten_days_later]))
    ten_days_later None
  = Ok (Some (midnight (ymd 2020 1 1 + 10))).
Proof.
  apply (days_count_from_startdate (with_inserts [ten_days_later])
           ten_days_later (ymd 2020 1 1) 10 None); try reflexivity.
  vm_compute. split; discriminate.
Defined.

Lemma days_out_of_calendar_witness :
  resolve_date (default_refdate (with_inserts [too_many_days]))
    too_many_days None
  = Raise OverflowError.
Proof.
  apply (days_out_of_calendar (default_refdate (with_inserts [too_many_days]))
           too_many_days (ymd 2020 1 1) 3000000 None); try reflexivity.
  vm_compute. intros [_ H]. apply H. reflexivity.
Defined.

Lemma no_insert_no_write_witness :
  fst (process_sch_config parse_plain empty_document
         monthly_2020 foo_sch)
  = foo_sch.
Proof.
  apply (no_insert_no_write parse_plain empty_document
           monthly_2020 foo_sch).
  reflexivity.
Defined.

Lemma one_file_per_insertion_witness :
  size (fst (process_sch_config parse_plain empty_document
               (with_inserts
                  [templated_file; date_and_days])
               foo_sch))
  = (size foo_sch
     + length (default []
                 (c_insert (with_inserts
                              [templated_file; date_and_days]))))%nat.
Proof.
  apply (one_file_per_insertion parse_plain empty_document
           (with_inserts [templated_file; date_and_days])
           foo_sch _
           [(midnight (ymd 2020 1 11), ["WCONHIST"]);
            (midnight (ymd 2020 3 1), ["WELSPECS P1 'G1' <GROUP>"])]).
  vm_compute. reflexivity.
Defined.

Lemma substituted_copy_is_loaded_witness :
  fst (process_insert parse_plain
         (default_refdate (with_inserts [templated_file]))
         templated_file (first_locals []) foo_sch)
  = <[fresh_string "/tmp/tmp" foo_sch
      := map (substitute_line [("NAME", YStr "P1")])
           ["WELSPECS <NAME> 'G1' <GROUP>"]]> foo_sch.
Proof.
  apply (substituted_copy_is_loaded parse_plain
           (default_refdate (with_inserts [templated_file]))
           templated_file (first_locals []) foo_sch _
           {| v_schedule := [(midnight (ymd 2020 3 1),
                              ["WELSPECS P1 'G1' <GROUP>"])];
              v_filename := Some "/tmp/tmp";
              v_date := Some (midnight (ymd 2020 3 1)) |}
           [("NAME", YStr "P1")] "foo.sch" ["WELSPECS <NAME> 'G1' <GROUP>"]);
    vm_compute; reflexivity.
Defined.
